(** * A shallow embedding of [imodels/greedy_rule_list.py]

    The model follows [GreedyRuleListClassifier] method by method.

    - Feature values and labels are numbers, kept as exact rationals [Q].
    - numpy float64 results (means, criterion values, weights) use [flt].
      [flt] is a rational, [+inf], [-inf] or NaN. Its comparisons are
      IEEE's: every comparison with NaN is false.
    - Python exceptions are values of [exc].
    - The instance ([self]) is the record [inst]. Methods that mutate it
      run in a small state-and-exception monad. Assignments made before an
      exception persist, as they do in Python.
    - [math.log(p, 2)], the square root inside [np.corrcoef], and the
      iteration order of a Python [set] come from an environment record
      [pyenv]. Theorems quantify over that record. *)

From Stdlib Require Import ZArith QArith Ascii String List Bool Lia Lqa.
Import ListNotations.
Open Scope Q_scope.

(** ** numpy float64 values *)

Inductive flt : Type :=
| Fin (q : Q)
| PInf
| NInf
| NaN.

(** [a <= b] *)
Definition flt_le (a b : flt) : bool :=
  match a, b with
  | NaN, _ | _, NaN => false
  | NInf, _ => true
  | _, PInf => true
  | PInf, _ => false
  | _, NInf => false
  | Fin p, Fin q => Qle_bool p q
  end.

(** [a == b] and [a > b] *)
Definition flt_eq (a b : flt) : bool := flt_le a b && flt_le b a.
Definition flt_gt (a b : flt) : bool := flt_le b a && negb (flt_le a b).

Definition flt_add (a b : flt) : flt :=
  match a, b with
  | NaN, _ | _, NaN => NaN
  | PInf, NInf | NInf, PInf => NaN
  | PInf, _ | _, PInf => PInf
  | NInf, _ | _, NInf => NInf
  | Fin p, Fin q => Fin (p + q)
  end.

(** A float times a Python number. *)
Definition flt_mulq (a : flt) (q : Q) : flt :=
  match a with
  | Fin p => Fin (p * q)
  | NaN => NaN
  | PInf => if Qeq_bool q 0 then NaN else if Qle_bool 0 q then PInf else NInf
  | NInf => if Qeq_bool q 0 then NaN else if Qle_bool 0 q then NInf else PInf
  end.

(** numpy float64 division [p / q]. Dividing by zero gives NaN or an
    infinity, with a warning rather than an exception. *)
Definition np_div (p q : Q) : flt :=
  if Qeq_bool q 0 then
    (if Qeq_bool p 0 then NaN else if Qle_bool 0 p then PInf else NInf)
  else Fin (p / q).

Definition flt_divq (a : flt) (q : Q) : flt :=
  match a with
  | Fin p => np_div p q
  | NaN => NaN
  | PInf => if Qle_bool 0 q then PInf else NInf
  | NInf => if Qle_bool 0 q then NInf else PInf
  end.

Definition flt_neg (a : flt) : flt :=
  match a with
  | Fin p => Fin (- p)
  | PInf => NInf
  | NInf => PInf
  | NaN => NaN
  end.

(** [1 - a] *)
Definition flt_one_minus (a : flt) : flt := flt_add (Fin 1) (flt_neg a).

(** [np.clip(a, -1, 1)] *)
Definition flt_clip1 (a : flt) : flt :=
  match a with
  | Fin p => Fin (if Qle_bool p (-1) then -1 else if Qle_bool 1 p then 1 else p)
  | PInf => Fin 1
  | NInf => Fin (-1)
  | NaN => NaN
  end.

Definition Qltb (p q : Q) : bool := negb (Qle_bool q p).

Definition Qsum (l : list Q) : Q := fold_right Qplus 0 l.

Definition Qlen {A} (l : list A) : Q := inject_Z (Z.of_nat (length l)).

(** [np.mean(y)]: the mean of an empty array is NaN. *)
Definition np_mean (y : list Q) : flt :=
  match y with
  | [] => NaN
  | _ => Fin (Qsum y / Qlen y)
  end.

(** [np.unique(y).size] *)
Fixpoint Qmem (a : Q) (l : list Q) : bool :=
  match l with
  | [] => false
  | b :: l' => Qeq_bool a b || Qmem a l'
  end.

Fixpoint Qdedup (l : list Q) : list Q :=
  match l with
  | [] => []
  | a :: l' => if Qmem a l' then Qdedup l' else a :: Qdedup l'
  end.

Definition np_unique_size (y : list Q) : nat := length (Qdedup y).

(** [sum(y == c)] *)
Definition count_eq (c : Q) (y : list Q) : nat :=
  length (filter (fun a => Qeq_bool a c) y).

(** ** Python exceptions and results *)

Inductive exc : Type :=
| TypeError
| IndexError
| KeyError
| AttributeError
| UnboundLocalError
| RecursionError.

Inductive pyres (A : Type) : Type :=
| Ok (a : A)
| Raise (e : exc).
Arguments Ok {A} a.
Arguments Raise {A} e.

Definition pbind {A B} (r : pyres A) (k : A -> pyres B) : pyres B :=
  match r with
  | Ok a => k a
  | Raise e => Raise e
  end.

Notation "x <-? r ;; k" := (pbind r (fun x => k))
  (at level 61, r at next level, right associativity).

(** [y[mask]]: boolean indexing raises [IndexError] on a length mismatch. *)
Definition bool_index {A} (mask : list bool) (l : list A) : pyres (list A) :=
  if Nat.eqb (length mask) (length l)
  then Ok (map snd (filter fst (combine mask l)))
  else Raise IndexError.

(** [names[i]] on a Python list *)
Definition py_index {A} (l : list A) (i : nat) : pyres A :=
  match nth_error l i with
  | Some a => Ok a
  | None => Raise IndexError
  end.

(** ** Data model *)

(** A 2-D numpy array with [ncols] columns ([x.shape[1]]); every row
    has [ncols] entries. *)
Record mat : Type := mk_mat {
  ncols : nat;
  rows : list (list Q)
}.

(** [x.T] *)
Definition columns (x : mat) : list (list Q) :=
  map (fun i => map (fun r => nth i r 0) (rows x)) (seq 0 (ncols x)).

(** A node of the rule list: the dictionaries built in [fit]. A leaf is
    [{'val': y[0], 'num_pts': y.size}]. A split carries
    [col, index_col, cutoff, val, flip, val_right, num_pts, num_pts_right]. *)
Inductive rule : Type :=
| Leaf (val : Q) (num_pts : nat)
| Split (col : string) (index_col : nat) (cutoff : Q) (val : flt)
        (flip : bool) (val_right : flt) (num_pts num_pts_right : nat).

(** [rule['val']] *)
Definition rule_val (r : rule) : flt :=
  match r with
  | Leaf v _ => Fin v
  | Split _ _ _ v _ _ _ _ => v
  end.

(** The attributes of a [GreedyRuleListClassifier] instance. [rules_] is
    [None] while the attribute does not exist. *)
Record inst : Type := mk_inst {
  depth : Z;
  max_depth : Z;
  feature_names : option (list string);
  class_weight : option (list (Q * Q));
  criterion : string;
  rules_ : option (list rule)
}.

(** [GreedyRuleListClassifier(max_depth, class_weight, criterion)] *)
Definition new_inst (md : Z) (cw : option (list (Q * Q))) (crit : string) : inst :=
  mk_inst 0 md None cw crit None.

Definition set_feature_names (fn : list string) (st : inst) : inst :=
  mk_inst (depth st) (max_depth st) (Some fn) (class_weight st) (criterion st) (rules_ st).

Definition set_rules (rs : list rule) (st : inst) : inst :=
  mk_inst (depth st) (max_depth st) (feature_names st) (class_weight st) (criterion st) (Some rs).

Definition incr_depth (st : inst) : inst :=
  mk_inst (depth st + 1)%Z (max_depth st) (feature_names st) (class_weight st) (criterion st) (rules_ st).

(** What the code takes from Python and numpy without defining it:
    [math.log(p, 2)], the square root used by [np.corrcoef], and the
    iteration order of [set(l)]. For floats that order is fixed by the
    hashes and the insertion sequence, so it is a function of [l]. *)
Record pyenv : Type := mk_pyenv {
  py_log2 : Q -> Q;
  py_sqrt : Q -> Q;
  py_set : list Q -> list Q
}.

(** [1e10], the initial "best" criterion value *)
Definition big : flt := Fin (inject_Z (10 ^ 10)%Z).

(** [l[mask]] when the lengths agree *)
Definition sel {A} (mask : list bool) (l : list A) : list A :=
  map snd (filter fst (combine mask l)).

Definition count_ne (c : Q) (y : list Q) : nat :=
  length (filter (fun a => negb (Qeq_bool a c)) y).

Definition Qnat (n : nat) : Q := inject_Z (Z.of_nat n).

Section Criteria.

Variable E : pyenv.

(** [gini_criterion] *)
Definition gini_criterion (y : list Q) : Q :=
  let n := Qlen y in
  fold_left (fun s c => let p_c := Qnat (count_eq c y) / n in s + p_c * (1 - p_c))
            (py_set E y) 0.

(** [entropy_from_counts] (module level) *)
Definition entropy_from_counts (c1 c2 : nat) : Q :=
  if (Nat.eqb c1 0 || Nat.eqb c2 0)%bool then 0
  else
    let entropy_func p := - p * py_log2 E p in
    let p1 := Qnat c1 / Qnat (c1 + c2) in
    let p2 := Qnat c2 / Qnat (c1 + c2) in
    entropy_func p1 + entropy_func p2.

(** [entropy_criterion] *)
Definition entropy_criterion (y : list Q) : Q :=
  let n := Qlen y in
  fold_left (fun s c =>
               let weight := Qnat (count_eq c y) / n in
               s + weight * entropy_from_counts (count_eq c y) (count_ne c y))
            (py_set E y) 0.

(** [np.corrcoef(a, b)[0, 1]] for [len(a) = len(b) >= 2]: the covariance
    divided by each standard deviation in turn, then clipped to
    [[-1, 1]]. *)
Definition np_corrcoef01 (a b : list Q) : flt :=
  let n := Qlen a in
  let ma := Qsum a / n in
  let mb := Qsum b / n in
  let c00 := Qsum (map (fun u => (u - ma) * (u - ma)) a) / (n - 1) in
  let c11 := Qsum (map (fun v => (v - mb) * (v - mb)) b) / (n - 1) in
  let c01 := Qsum (map (fun '(u, v) => (u - ma) * (v - mb)) (combine a b)) / (n - 1) in
  flt_clip1 (flt_divq (np_div c01 (py_sqrt E c00)) (py_sqrt E c11)).

(** [neg_corr_criterion]. Labels with more than two values only print a
    message. *)
Definition neg_corr_criterion (split_decision : list bool) (y : list Q) : flt :=
  if Nat.ltb (np_unique_size y) 2 then Fin 0
  else
    let y := if Qltb (Qsum y) (Qlen y / 2) then map (fun a => 1 - a) y else y in
    flt_mulq (np_corrcoef01 (map (fun b : bool => if b then 1 else 0) split_decision) y) (-1).

(** [sample_weights], the per-row weights built from [class_weight] *)
Definition sample_weights (cw : option (list (Q * Q))) (y_real : list Q) : list Q :=
  let ones := map (fun _ => 1) y_real in
  match cw with
  | None => ones
  | Some kvs =>
      fold_left (fun sw '(c, w) =>
                   map (fun '(yi, si) => if Qeq_bool yi c then w else si) (combine y_real sw))
                kvs ones
  end.

(** [weighted_criterion]. [Ok None] is Python's [return None]. *)
Definition weighted_criterion (self : inst) (split_decision : list bool) (y_real : list Q)
  : pyres (option flt) :=
  if negb (Nat.eqb (length split_decision) (length y_real)) then Ok None
  else
    let weigh (criterion_func : list Q -> Q) :=
      let s_left := criterion_func (sel split_decision y_real) in
      let s_right := criterion_func (sel (map negb split_decision) y_real) in
      let sw := sample_weights (class_weight self) y_real in
      let tot_weight := Qsum sw in
      let weight_left := np_div (Qsum (sel split_decision sw)) tot_weight in
      let weight_right := np_div (Qsum (sel (map negb split_decision) sw)) tot_weight in
      Ok (Some (flt_add (flt_mulq weight_left s_left) (flt_mulq weight_right s_right))) in
    if String.eqb (criterion self) "entropy" then weigh entropy_criterion
    else if String.eqb (criterion self) "gini" then weigh gini_criterion
    else if String.eqb (criterion self) "neg_corr"
    then Ok (Some (neg_corr_criterion split_decision y_real))
    else Raise UnboundLocalError.

(** The loop of [split_on_feature] over [set(col)]. The accumulator is
    [(min_criterion_val, cutoff)]. Comparing [None <= float] raises
    [TypeError]. *)
Fixpoint split_on_feature_loop (self : inst) (col : list Q) (y : list Q)
         (values : list Q) (acc : flt * Q) : pyres (flt * Q) :=
  match values with
  | [] => Ok acc
  | value :: values' =>
      let y_predict := map (fun a => Qltb a value) col in
      cv <-? weighted_criterion self y_predict y ;;
      match cv with
      | None => Raise TypeError
      | Some criterion_val =>
          let acc' := if flt_le criterion_val (fst acc) then (criterion_val, value) else acc in
          split_on_feature_loop self col y values' acc'
      end
  end.

(** [split_on_feature]: returns [(min_criterion_val, cutoff)] *)
Definition split_on_feature (self : inst) (col : list Q) (y : list Q) : pyres (flt * Q) :=
  split_on_feature_loop self col y (py_set E col) (big, 1 # 2).

(** The loop of [find_best_split] over [enumerate(x.T)]. The accumulator is
    [(col, cutoff, min_criterion_val)]. *)
Fixpoint find_best_split_loop (self : inst) (y : list Q) (i : nat) (cs : list (list Q))
         (acc : option nat * option Q * flt) : pyres (option nat * option Q * flt) :=
  match cs with
  | [] => Ok acc
  | c :: cs' =>
      r <-? split_on_feature self c y ;;
      let '(criterion_val, cur_cutoff) := r in
      if flt_eq criterion_val (Fin 0) then Ok (Some i, Some cur_cutoff, criterion_val)
      else
        let '(_, _, min_criterion_val) := acc in
        if flt_le criterion_val min_criterion_val
        then find_best_split_loop self y (S i) cs' (Some i, Some cur_cutoff, criterion_val)
        else find_best_split_loop self y (S i) cs' acc
  end.

(** [find_best_split] *)
Definition find_best_split (self : inst) (x : mat) (y : list Q)
  : pyres (option nat * option Q * flt) :=
  find_best_split_loop self y 0 (columns x) (None, None, big).

End Criteria.

(** ** The instance as state *)

(** [str(n)] for a natural number *)
Fixpoint digits_aux (fuel n : nat) (acc : string) : string :=
  match fuel with
  | O => acc
  | S fuel' =>
      let acc' := String (ascii_of_nat (48 + Nat.modulo n 10)) acc in
      if Nat.ltb n 10 then acc' else digits_aux fuel' (Nat.div n 10) acc'
  end.

Definition py_str (n : nat) : string := digits_aux (S n) n EmptyString.

(** [['feat ' + str(i) for i in range(n)]] *)
Definition default_feature_names (n : nat) : list string :=
  map (fun i => append "feat " (py_str i)) (seq 0 n).

(** [all_same] *)
Definition all_same (items : list Q) : bool :=
  forallb (fun a => Qeq_bool a (hd 0 items)) items.

(** A method that reads and writes [self] and may raise. The state is
    returned in both cases. *)
Definition M (A : Type) : Type := inst -> inst * pyres A.

Definition mret {A} (a : A) : M A := fun st => (st, Ok a).
Definition mraise {A} (e : exc) : M A := fun st => (st, Raise e).
Definition mlift {A} (r : pyres A) : M A := fun st => (st, r).
Definition mget : M inst := fun st => (st, Ok st).
Definition mmodify (f : inst -> inst) : M unit := fun st => (f st, Ok tt).
Definition mbind {A B} (m : M A) (k : A -> M B) : M B :=
  fun st =>
    let (st', r) := m st in
    match r with
    | Ok a => k a st'
    | Raise e => (st', Raise e)
    end.

Notation "x <- m ;; k" := (mbind m (fun x => k))
  (at level 61, m at next level, right associativity).

Section Fit.

Variable E : pyenv.

(** [fit(x, y, depth, feature_names)] for numpy inputs. [fuel] bounds the
    recursion; [fit] below gives enough of it for the [depth >= max_depth]
    test to stop the recursion first (lemma [fit_go_fuel]). *)
Fixpoint fit_go (fuel : nat) (x : mat) (y : list Q) (depth : Z)
         (fnames : option (list string)) : M (list rule) :=
  self <- mget ;;
  _ <- match feature_names self with
       | None => mmodify (set_feature_names (default_feature_names (ncols x)))
       | Some _ => mret tt
       end ;;
  _ <- match fnames with
       | Some fn => mmodify (set_feature_names fn)
       | None => mret tt
       end ;;
  self <- mget ;;
  (* base case 1: no data in this group *)
  if Nat.eqb (length y) 0 then mret []
  (* base case 2: all y is the same in this group *)
  else if all_same y then mret [Leaf (hd 0 y) (length y)]
  (* base case 3: max depth reached *)
  else if Z.geb depth (max_depth self) then mret []
  else
    match fuel with
    | O => mraise RecursionError
    | S fuel' =>
        r <- mlift (find_best_split E self x y) ;;
        let '(col, cutoff, _) := r in
        match col, cutoff with
        | Some col, Some cutoff =>
            let lt_mask := map (fun row => Qltb (nth col row 0) cutoff) (rows x) in
            let ge_mask := map negb lt_mask in
            y_left <- mlift (bool_index lt_mask y) ;;
            y_right <- mlift (bool_index ge_mask y) ;;
            let flip := flt_gt (np_mean y_left) (np_mean y_right) in
            let '(y_left, y_right, x_left) :=
              if flip then (y_right, y_left, mk_mat (ncols x) (sel ge_mask (rows x)))
              else (y_left, y_right, mk_mat (ncols x) (sel lt_mask (rows x))) in
            name <- mlift match feature_names self with
                          | Some fn => py_index fn col
                          | None => Raise TypeError
                          end ;;
            let par_node := Split name col cutoff (np_mean y) flip (np_mean y_right)
                                  (length y) (length y_right) in
            rest <- fit_go fuel' x_left y_left (depth + 1) None ;;
            _ <- mmodify incr_depth ;;
            _ <- mmodify (set_rules (par_node :: rest)) ;;
            mret (par_node :: rest)
        | _, _ => mraise TypeError
        end
    end.

Definition fit_fuel (self : inst) (depth : Z) : nat := S (Z.to_nat (max_depth self - depth)).

(** [clf.fit(x, y, depth, feature_names)] *)
Definition fit (x : mat) (y : list Q) (depth : Z) (fnames : option (list string))
  : M (list rule) :=
  fun self => fit_go (fit_fuel self depth) x y depth fnames self.

End Fit.

(** ** Inference *)

(** The inner loop of [predict_proba] for one row [x]: the value stored
    in [probs[i]]. *)
Fixpoint predict_row (x : list Q) (rs : list rule) : pyres flt :=
  match rs with
  | [] => Ok (Fin 0)
  | [rule] => Ok (rule_val rule)
  | rule :: rs' =>
      match rule with
      | Leaf _ _ => Raise KeyError
      | Split _ index_col cutoff val _ _ _ _ =>
          xv <-? py_index x index_col ;;
          if Qle_bool cutoff xv then Ok val else predict_row x rs'
      end
  end.

Fixpoint map_res {A B} (f : A -> pyres B) (l : list A) : pyres (list B) :=
  match l with
  | [] => Ok []
  | a :: l' => b <-? f a ;; bs <-? map_res f l' ;; Ok (b :: bs)
  end.

(** [predict_proba]: [self.rules_] is read inside the loop over rows. *)
Definition predict_proba (self : inst) (X : mat) : pyres (list (flt * flt)) :=
  probs <-? map_res (fun x => match rules_ self with
                              | None => Raise AttributeError
                              | Some rs => predict_row x rs
                              end) (rows X) ;;
  Ok (map (fun p => (flt_one_minus p, p)) probs).

(** [predict]: [(proba > 0.5).argmax(axis=1)] *)
Definition predict (self : inst) (X : mat) : pyres (list nat) :=
  proba <-? predict_proba self X ;;
  Ok (map (fun '(p0, p1) =>
             let b0 := flt_gt p0 (Fin (1 # 2)) in
             let b1 := flt_gt p1 (Fin (1 # 2)) in
             if (negb b0 && b1)%bool then 1%nat else 0%nat) proba).

(** ** A concrete environment for evaluation *)

(** [Qround q]: [q] truncated to 40 binary digits *)
Definition Qround (q : Q) : Q :=
  Qmake (Z.div (Qnum q * 2 ^ 40) (Zpos (Qden q))) (2 ^ 40).

(** The bits of [log2 m] for [1 <= m < 2], by repeated squaring *)
Fixpoint log2_frac (k : nat) (m : Q) : Q :=
  match k with
  | O => 0
  | S k' =>
      let m2 := Qround (m * m) in
      if Qle_bool 2 m2 then (1 # 2) * (1 + log2_frac k' (m2 / 2))
      else (1 # 2) * log2_frac k' m2
  end.

(** A rational approximation of [math.log(q, 2)] for [q > 0] *)
Definition log2_approx (q : Q) : Q :=
  if Qle_bool q 0 then 0
  else
    let e := (Z.log2 (Qnum q) - Z.log2 (Zpos (Qden q)))%Z in
    let m := q / (2 ^ e) in
    let '(e, m) := if Qltb m 1 then ((e - 1)%Z, m * 2) else (e, m) in
    inject_Z e + log2_frac 40 m.

(** A rational approximation of the square root, [sqrt 0 = 0] *)
Definition sqrt_approx (q : Q) : Q :=
  if Qle_bool q 0 then 0
  else Qmake (Z.sqrt (Qnum q * Zpos (Qden q) * 2 ^ 52)) (Qden q * 2 ^ 26).

Fixpoint Qinsert_uniq (a : Q) (l : list Q) : list Q :=
  match l with
  | [] => [a]
  | b :: l' =>
      if Qeq_bool a b then l
      else if Qle_bool a b then a :: l
      else b :: Qinsert_uniq a l'
  end.

(** The distinct values in increasing order. This is CPython's iteration
    order for a set of small non-negative integral floats: [hash(k.0) = k]
    puts [k] in slot [k]. The concrete inputs below use only such values. *)
Definition sorted_set (l : list Q) : list Q := fold_left (fun acc a => Qinsert_uniq a acc) l [].

Definition cpython_env : pyenv := mk_pyenv log2_approx sqrt_approx sorted_set.

(** The assignments at the top of [fit]: default feature names when none
    are stored, then the [feature_names] argument if given. *)
Definition header (x : mat) (fnames : option (list string)) (s : inst) : inst :=
  let s := match feature_names s with
           | None => set_feature_names (default_feature_names (ncols x)) s
           | Some _ => s
           end in
  match fnames with
  | Some fn => set_feature_names fn s
  | None => s
  end.

(** Two instances that agree on every attribute [fit] reads *)
Definition agree (s1 s2 : inst) : Prop :=
  max_depth s1 = max_depth s2 /\ class_weight s1 = class_weight s2 /\
  criterion s1 = criterion s2 /\ feature_names s1 = feature_names s2.

(** An instance before its first [fit] *)
Definition fresh (md : Z) (crit : string) : inst := new_inst md None crit.

(** The criterion names [weighted_criterion] dispatches on *)
Definition known_criteria : list string := ["entropy"%string; "gini"%string; "neg_corr"%string].

(** Two runs of a method, from instances that agree, give the same
    result and leave instances that agree. *)
Definition rel {A} (m1 m2 : M A) : Prop :=
  forall s1 s2, agree s1 s2 ->
  snd (m1 s1) = snd (m2 s2) /\ agree (fst (m1 s1)) (fst (m2 s2)).

(** A method that leaves an instance with stored feature names agreeing
    with itself *)
Definition keeps {A} (m : M A) : Prop :=
  forall s, feature_names s <> None -> agree (fst (m s)) s.

(** A method that, run on an instance with [max_depth = md], keeps
    [max_depth] at [md] and does not raise [RecursionError] *)
Definition bounded {A} (md : Z) (m : M A) : Prop :=
  forall s, max_depth s = md ->
  max_depth (fst (m s)) = md /\ snd (m s) <> Raise RecursionError.

(** A rule list as [fit] builds it: split nodes, possibly ended by one
    leaf. Every split names a column of [x] by its index, and its [col]
    is the stored feature name at that index. *)
Fixpoint rule_shape (ncol : nat) (fns : list string) (l : list rule) : Prop :=
  match l with
  | [] => True
  | Leaf _ _ :: rest => rest = []
  | Split c ic _ _ _ _ _ _ :: rest =>
      (ic < ncol)%nat /\ nth_error fns ic = Some c /\ rule_shape ncol fns rest
  end.

(** The point counts along a rule list: the first node counts [n] points;
    after a split, the next node counts the points left of it. *)
Fixpoint counts_chain (n : nat) (l : list rule) : Prop :=
  match l with
  | [] => True
  | Leaf _ k :: _ => k = n /\ (0 < k)%nat
  | Split _ _ _ _ _ _ k kr :: rest => k = n /\ (kr <= k)%nat /\ counts_chain (k - kr) rest
  end.

(** A split whose right side is empty (its mean is NaN), or whose
    [val_right] is at least its [val] *)
Definition right_not_below (r : rule) : Prop :=
  match r with
  | Leaf _ _ => True
  | Split _ _ _ v _ vr _ kr => (kr = 0%nat /\ vr = NaN) \/ flt_le v vr = true
  end.

(** The number of split nodes *)
Fixpoint nsplits (l : list rule) : nat :=
  match l with
  | [] => 0
  | Leaf _ _ :: l' => nsplits l'
  | Split _ _ _ _ _ _ _ _ :: l' => S (nsplits l')
  end.

(** [rule['val']] is a number in [[lo, hi]] *)
Definition val_within (lo hi : Q) (r : rule) : Prop :=
  match rule_val r with
  | Fin q => lo <= q /\ q <= hi
  | _ => False
  end.

(** What [find_best_split] can return: its initial accumulator, or a
    column index below [n] with a cutoff *)
Definition best_split_shape (n : nat) (r : option nat * option Q * flt) : Prop :=
  r = (None, None, big) \/ exists j c v, r = (Some j, Some c, v) /\ (j < n)%nat.

(** A training set with one feature [0..5] and labels [0, 0, 0, 1, 1, 1],
    and the rule list [fit] returns for it with [max_depth = 5] *)
Definition ex_x : mat := mk_mat 1 [[0]; [1]; [2]; [3]; [4]; [5]].
Definition ex_y : list Q := [0; 0; 0; 1; 1; 1].
Definition ex_rules : list rule :=
  [Split "feat 0" 0 3 (Fin (3 # 6)) false (Fin (3 # 3)) 6 3; Leaf 0 3].

(** ** Helper lemmas *)

Lemma flt_eq_Fin_nonzero (v : Q) : ~ v == 0 -> flt_eq (Fin v) (Fin 0) = false.
Proof.
  intro Hv. unfold flt_eq, flt_le.
  destruct (Qle_bool v 0) eqn:E1, (Qle_bool 0 v) eqn:E2; try reflexivity.
  exfalso. apply Hv. apply Qle_bool_iff in E1. apply Qle_bool_iff in E2.
  apply Qle_antisym; assumption.
Qed.

Lemma flt_le_Fin (p q : Q) : flt_le (Fin p) (Fin q) = Qle_bool p q.
Proof. reflexivity. Qed.

(** [predict_proba] raises [AttributeError] as soon as there is a row and
    [rules_] does not exist. *)
Lemma predict_proba_no_rules (self : inst) (X : mat) :
  rules_ self = None -> rows X <> [] -> predict_proba self X = Raise AttributeError.
Proof.
  intros Hr HX. unfold predict_proba. rewrite Hr.
  destruct (rows X) as [|r rs]; [contradiction|]. reflexivity.
Qed.

Lemma predict_no_rules (self : inst) (X : mat) :
  rules_ self = None -> rows X <> [] -> predict self X = Raise AttributeError.
Proof.
  intros Hr HX. unfold predict. rewrite (predict_proba_no_rules self X Hr HX). reflexivity.
Qed.

(** [predict_proba] and [predict] read nothing of [self] but [rules_]. *)
Lemma predict_proba_rules (s1 s2 : inst) (X : mat) :
  rules_ s1 = rules_ s2 -> predict_proba s1 X = predict_proba s2 X.
Proof. intro H. unfold predict_proba. rewrite H. reflexivity. Qed.

Lemma predict_rules (s1 s2 : inst) (X : mat) :
  rules_ s1 = rules_ s2 -> predict s1 X = predict s2 X.
Proof. intro H. unfold predict. rewrite (predict_proba_rules s1 s2 X H). reflexivity. Qed.

(** ** Claims *)

(** C1 (code_bug). The spec example: [x = [0..5]], [y = [0,0,0,1,1,1]]
    fits the list [[x >= 3 -> 1.0]; else 0]. For the row [x = 5] the split
    is triggered, yet [predict_proba] returns the split's [val] (0.5), not
    its [val_right] (1.0). *)
Lemma C1_predict_proba_returns_val_not_val_right :
  let st := fst (fit cpython_env (mk_mat 1 [[0]; [1]; [2]; [3]; [4]; [5]]) [0; 0; 0; 1; 1; 1]
                     0 None (fresh 5 "gini")) in
  rules_ st = Some [Split "feat 0" 0 3 (Fin (3 # 6)) false (Fin (3 # 3)) 6 3; Leaf 0 3] /\
  predict_proba st (mk_mat 1 [[5]]) = Ok [(Fin (3 # 6), Fin (3 # 6))].
Proof. vm_compute. split; reflexivity. Qed.

(** C2 (counterexample). A mask of length 1 against two labels: the call
    returns a value, [None], and raises nothing. *)
Lemma C2_mismatch_returns_None :
  weighted_criterion cpython_env (fresh 5 "gini") [true] [0; 1] = Ok None.
Proof. reflexivity. Qed.

(** C2 (amended). For a split mask and a label vector of different
    lengths, [weighted_criterion] returns [None] (after printing a
    message). It raises no exception and computes no criterion value,
    whatever the criterion and class weights. *)
Theorem C2_mismatch_returns_None_always (E : pyenv) (self : inst)
        (split_decision : list bool) (y_real : list Q) :
  length split_decision <> length y_real ->
  weighted_criterion E self split_decision y_real = Ok None.
Proof.
  intro H. unfold weighted_criterion.
  apply Nat.eqb_neq in H. rewrite H. reflexivity.
Qed.

Lemma C2_witness :
  (1 <> 2)%nat /\ weighted_criterion cpython_env (fresh 5 "gini") [true] [0; 1] = Ok None.
Proof.
  split; [discriminate|].
  apply (C2_mismatch_returns_None_always cpython_env (fresh 5 "gini") [true] [0; 1]).
  simpl. discriminate.
Defined.

(** C3 (counterexample). Two identical columns both score [1/3], the
    minimum, and no score is 0. [find_best_split] returns column 1, not
    the lowest tied index 0. *)
Lemma C3_tie_goes_to_highest_index :
  columns (mk_mat 2 [[0; 0]; [1; 1]; [2; 2]]) = [[0; 1; 2]; [0; 1; 2]] /\
  split_on_feature cpython_env (fresh 5 "gini") [0; 1; 2] [0; 1; 0] = Ok (Fin (48 # 144), 2) /\
  find_best_split cpython_env (fresh 5 "gini") (mk_mat 2 [[0; 0]; [1; 1]; [2; 2]]) [0; 1; 0]
  = Ok (Some 1%nat, Some 2, Fin (48 # 144)).
Proof. vm_compute. repeat split. Qed.

(** C4 (counterexample). An unknown criterion name on a pure label vector:
    [fit] returns a leaf and raises nothing. *)
Lemma C4_unknown_criterion_accepted :
  snd (fit cpython_env (mk_mat 1 [[0]; [1]]) [1; 1] 0 None (fresh 5 "foo")) = Ok [Leaf 1 2].
Proof. vm_compute. reflexivity. Qed.

(** C6 (code_bug). With [neg_corr], one constant column [0] and labels
    [[0, 1]], every threshold gives [corrcoef = NaN]. The sentinel score
    [1e10] then wins with the default cutoff [0.5]. Every row falls left,
    so the right side is empty and [val_right = mean([]) = NaN]. The
    invariant [val_right >= val] is false for that node. *)
Lemma C6_split_with_nan_val_right :
  snd (fit cpython_env (mk_mat 1 [[0]; [0]]) [0; 1] 0 None (fresh 1 "neg_corr"))
  = Ok [Split "feat 0" 0 (1 # 2) (Fin (1 # 2)) false NaN 2 0] /\
  flt_le (Fin (1 # 2)) NaN = false.
Proof. vm_compute. split; reflexivity. Qed.

(** C8 (counterexample). With [max_depth = 0], [fit] returns [[]] on a
    non-pure [y]. [predict_proba] and [predict] on a matrix with no rows
    then return an empty result and raise nothing. *)
Lemma C8_no_rows_no_error :
  let st := fst (fit cpython_env (mk_mat 1 [[0]; [1]]) [0; 1] 0 None (fresh 0 "gini")) in
  snd (fit cpython_env (mk_mat 1 [[0]; [1]]) [0; 1] 0 None (fresh 0 "gini")) = Ok [] /\
  predict_proba st (mk_mat 1 []) = Ok [] /\ predict st (mk_mat 1 []) = Ok [].
Proof. vm_compute. repeat split. Qed.

(** C9 (counterexample). Two instances built with the same parameters.
    One is fresh. The other was first fitted on a one-column matrix, which
    stored [feature_names = ['feat 0']]. On the same two-column input, the
    fresh one returns a rule list. The other raises [IndexError] at
    [self.feature_names[1]]. *)
Lemma C9_fit_history_changes_result :
  let used := fst (fit cpython_env (mk_mat 1 [[0]; [1]]) [0; 1] 0 None (fresh 5 "gini")) in
  snd (fit cpython_env (mk_mat 2 [[0; 0]; [0; 1]]) [0; 1] 0 None used) = Raise IndexError /\
  snd (fit cpython_env (mk_mat 2 [[0; 0]; [0; 1]]) [0; 1] 0 None (fresh 5 "gini"))
  = Ok [Split "feat 1" 1 1 (Fin (1 # 2)) false (Fin 1) 2 1; Leaf 0 1].
Proof. vm_compute. split; reflexivity. Qed.

(** C10 (counterexample). A top-level [fit] on an empty label vector ends
    in base case 1. On the fresh instance, [predict_proba] of a matrix with
    no rows returns an empty result and raises nothing. *)
Lemma C10_no_rows_no_error :
  let st := fst (fit cpython_env (mk_mat 1 []) [] 0 None (fresh 5 "gini")) in
  rules_ st = None /\ predict_proba st (mk_mat 1 []) = Ok [].
Proof. vm_compute. split; reflexivity. Qed.

(** *** The column scan of [find_best_split] *)

Section Scan.

Variables (E : pyenv) (self : inst) (y : list Q).

Lemma find_best_split_loop_keeps (cs : list (list Q)) (ps : list (Q * Q)) :
  Forall2 (fun c p => split_on_feature E self c y = Ok (Fin (fst p), snd p)) cs ps ->
  forall i oc ocut a,
  Forall (fun p => ~ fst p == 0 /\ a < fst p) ps ->
  find_best_split_loop E self y i cs (oc, ocut, Fin a) = Ok (oc, ocut, Fin a).
Proof.
  induction 1 as [|c [v cut] cs ps Hc Hrest IH]; intros i oc ocut a Hps; [reflexivity|].
  inversion Hps as [|? ? [Hnz Hlt] Hps']; subst. simpl.
  rewrite Hc. simpl pbind.
  rewrite (flt_eq_Fin_nonzero v Hnz).
  simpl in Hlt.
  assert (Hb : Qle_bool v a = false).
  { destruct (Qle_bool v a) eqn:Hva; [|reflexivity].
    apply Qle_bool_iff in Hva. exfalso. apply (Qlt_not_le a v); assumption. }
  rewrite Hb. apply IH. assumption.
Qed.

Lemma find_best_split_loop_last_min (cs : list (list Q)) (ps : list (Q * Q)) :
  Forall2 (fun c p => split_on_feature E self c y = Ok (Fin (fst p), snd p)) cs ps ->
  forall i oc ocut a j m cj,
  Forall (fun p => ~ fst p == 0) ps ->
  nth_error ps j = Some (m, cj) ->
  m <= a ->
  (forall k p, nth_error ps k = Some p -> m <= fst p) ->
  (forall k p, (j < k)%nat -> nth_error ps k = Some p -> m < fst p) ->
  find_best_split_loop E self y i cs (oc, ocut, Fin a) = Ok (Some (i + j)%nat, Some cj, Fin m).
Proof.
  induction 1 as [|c [v cut] cs ps Hc Hrest IH];
    intros i oc ocut a j m cj Hnz Hj Hma Hmin Hlast.
  - destruct j; discriminate.
  - inversion Hnz as [|? ? Hnz0 Hnz']; subst. simpl in Hnz0. simpl.
    rewrite Hc. simpl pbind.
    rewrite (flt_eq_Fin_nonzero v Hnz0).
    destruct j as [|j].
    + simpl in Hj. injection Hj as <- <-.
      apply Qle_bool_iff in Hma. rewrite Hma. rewrite Nat.add_0_r.
      apply (find_best_split_loop_keeps cs ps Hrest).
      apply Forall_forall. intros p Hp. split.
      * apply (proj1 (Forall_forall _ ps) Hnz'). assumption.
      * destruct (In_nth_error ps p Hp) as [k Hk].
        apply (Hlast (S k) p); [lia | assumption].
    + assert (Hmv : m <= v) by (apply (Hmin 0%nat (v, cut)); reflexivity).
      rewrite Nat.add_succ_r, <- Nat.add_succ_l.
      destruct (Qle_bool v a) eqn:Hva.
      * apply IH; auto.
        -- intros k p Hk. apply (Hmin (S k) p). assumption.
        -- intros k p Hjk Hk. apply (Hlast (S k) p); [lia | assumption].
      * apply IH; auto.
        -- intros k p Hk. apply (Hmin (S k) p). assumption.
        -- intros k p Hjk Hk. apply (Hlast (S k) p); [lia | assumption].
Qed.

Lemma find_best_split_loop_zero (pre : list (list Q)) :
  Forall (fun c' => exists r, split_on_feature E self c' y = Ok r /\
                              flt_eq (fst r) (Fin 0) = false) pre ->
  forall i acc c rest v cut,
  split_on_feature E self c y = Ok (v, cut) ->
  flt_eq v (Fin 0) = true ->
  find_best_split_loop E self y i (pre ++ c :: rest) acc
  = Ok (Some (i + length pre)%nat, Some cut, v).
Proof.
  induction 1 as [|c' pre [[v' cut'] [Hc' Hnz]] Hpre IH]; intros i acc c rest v cut Hc Hv.
  - simpl. rewrite Hc. simpl pbind. rewrite Hv, Nat.add_0_r. reflexivity.
  - simpl. rewrite Hc'. simpl pbind. simpl in Hnz. rewrite Hnz.
    destruct acc as [[oc ocut] mv].
    simpl length. rewrite Nat.add_succ_r, <- Nat.add_succ_l.
    destruct (flt_le v' mv); apply IH; assumption.
Qed.

End Scan.

(** C3 (amended). Suppose every column's best score is a number other
    than 0 (so nothing short-circuits), and the minimum [m] is at most the
    1e10 sentinel. Then [find_best_split] returns the LAST column [j] whose
    score is [m], with that column's cutoff: the [<=] test lets each later
    equal score replace the earlier one, so ties go to the highest index. *)
Theorem C3_last_minimal_column_wins (E : pyenv) (self : inst) (x : mat) (y : list Q)
        (ps : list (Q * Q)) (j : nat) (m cj : Q) :
  Forall2 (fun c p => split_on_feature E self c y = Ok (Fin (fst p), snd p)) (columns x) ps ->
  Forall (fun p => ~ fst p == 0) ps ->
  nth_error ps j = Some (m, cj) ->
  m <= inject_Z (10 ^ 10)%Z ->
  (forall k p, nth_error ps k = Some p -> m <= fst p) ->
  (forall k p, (j < k)%nat -> nth_error ps k = Some p -> m < fst p) ->
  find_best_split E self x y = Ok (Some j, Some cj, Fin m).
Proof.
  intros Hsc Hnz Hj Hbig Hmin Hlast. unfold find_best_split, big.
  apply (find_best_split_loop_last_min E self y (columns x) ps Hsc 0 None None); assumption.
Qed.

Lemma C3_witness :
  find_best_split cpython_env (fresh 5 "gini") (mk_mat 2 [[0; 0]; [1; 1]; [2; 2]]) [0; 1; 0]
  = Ok (Some 1%nat, Some 2, Fin (48 # 144)).
Proof.
  apply (C3_last_minimal_column_wins cpython_env (fresh 5 "gini")
           (mk_mat 2 [[0; 0]; [1; 1]; [2; 2]]) [0; 1; 0]
           [(48 # 144, 2); (48 # 144, 2)] 1%nat (48 # 144) 2).
  - constructor; [vm_compute; reflexivity|].
    constructor; [vm_compute; reflexivity|].
    constructor.
  - repeat constructor; intro H; vm_compute in H; discriminate H.
  - reflexivity.
  - apply Qle_bool_iff. vm_compute. reflexivity.
  - intros k p Hk. destruct k as [|[|k]]; simpl in Hk;
      [injection Hk as <- | injection Hk as <- | destruct k; discriminate];
      apply Qle_refl.
  - intros k p Hjk Hk. destruct k as [|[|k]]; [lia | lia | destruct k; discriminate].
Defined.

(** C5. Scanning columns left to right, let [c] be the first column whose
    best score equals 0; the columns [pre] before it each scored a
    non-zero value. Then [find_best_split] returns [c]'s index, its cutoff
    and that zero score. The columns after [c] are never scored: replacing
    them by any others, including columns whose scoring would raise,
    leaves the result unchanged. *)
Theorem C5_zero_score_short_circuits (E : pyenv) (self : inst) (x : mat) (y : list Q)
        (pre : list (list Q)) (c : list Q) (rest : list (list Q)) (v : flt) (cut : Q) :
  columns x = pre ++ c :: rest ->
  Forall (fun c' => exists r, split_on_feature E self c' y = Ok r /\
                              flt_eq (fst r) (Fin 0) = false) pre ->
  split_on_feature E self c y = Ok (v, cut) ->
  flt_eq v (Fin 0) = true ->
  find_best_split E self x y = Ok (Some (length pre), Some cut, v) /\
  (forall (x' : mat) (rest' : list (list Q)),
     columns x' = pre ++ c :: rest' -> find_best_split E self x' y = find_best_split E self x y).
Proof.
  intros Hx Hpre Hc Hv.
  assert (Hall : forall x' rest', columns x' = pre ++ c :: rest' ->
                 find_best_split E self x' y = Ok (Some (length pre), Some cut, v)).
  { intros x' rest' Hx'. unfold find_best_split. rewrite Hx'.
    apply (find_best_split_loop_zero E self y pre Hpre 0 (None, None, big) c rest' v cut);
      assumption. }
  split.
  - apply (Hall x rest Hx).
  - intros x' rest' Hx'. rewrite (Hall x' rest' Hx'), (Hall x rest Hx). reflexivity.
Qed.

Lemma C5_witness :
  find_best_split cpython_env (fresh 5 "gini") (mk_mat 2 [[0; 5]; [1; 5]]) [0; 1]
  = Ok (Some 0%nat, Some 1, Fin (0 # 4)).
Proof.
  destruct (C5_zero_score_short_circuits cpython_env (fresh 5 "gini")
              (mk_mat 2 [[0; 5]; [1; 5]]) [0; 1] [] [0; 1] [[5; 5]] (Fin (0 # 4)) 1)
    as [H _].
  - reflexivity.
  - constructor.
  - vm_compute. reflexivity.
  - reflexivity.
  - exact H.
Defined.

(** *** Base cases of [fit] *)

Lemma header_rules (x : mat) (fn : option (list string)) (s : inst) :
  rules_ (header x fn s) = rules_ s.
Proof. destruct s as [d md [f|] cw cr r], fn; reflexivity. Qed.

Lemma header_max_depth (x : mat) (fn : option (list string)) (s : inst) :
  max_depth (header x fn s) = max_depth s.
Proof. destruct s as [d md [f|] cw cr r], fn; reflexivity. Qed.

Lemma header_criterion (x : mat) (fn : option (list string)) (s : inst) :
  criterion (header x fn s) = criterion s.
Proof. destruct s as [d md [f|] cw cr r], fn; reflexivity. Qed.

Lemma all_same_nil : all_same [] = true.
Proof. reflexivity. Qed.

Lemma all_same_false_length (y : list Q) : all_same y = false -> Nat.eqb (length y) 0 = false.
Proof. destruct y; [discriminate | reflexivity]. Qed.

Lemma fit_go_all_same (E : pyenv) (fuel : nat) (x : mat) (y : list Q) (d : Z)
      (fn : option (list string)) (s : inst) :
  all_same y = true ->
  fit_go E fuel x y d fn s
  = (header x fn s, if Nat.eqb (length y) 0 then Ok [] else Ok [Leaf (hd 0 y) (length y)]).
Proof.
  intro H.
  destruct fuel, s as [d0 md [f|] cw cr r], fn;
    cbn [fit_go mbind mget mmodify mret header feature_names set_feature_names];
    rewrite H; destruct (Nat.eqb (length y) 0); reflexivity.
Qed.

Lemma fit_go_max_depth (E : pyenv) (fuel : nat) (x : mat) (y : list Q) (d : Z)
      (fn : option (list string)) (s : inst) :
  all_same y = false -> (max_depth s <= d)%Z ->
  fit_go E fuel x y d fn s = (header x fn s, Ok []).
Proof.
  intros H Hd. pose proof (all_same_false_length y H) as Hl.
  assert (Hg : Z.geb d (max_depth s) = true) by (apply Z.geb_le; exact Hd).
  destruct fuel, s as [d0 md [f|] cw cr r], fn;
    cbn [fit_go mbind mget mmodify mret header feature_names set_feature_names max_depth] in *;
    rewrite Hl, H, Hg; reflexivity.
Qed.

Lemma fit_go_split_raises (E : pyenv) (fuel : nat) (x : mat) (y : list Q) (d : Z)
      (fn : option (list string)) (s : inst) (e : exc) :
  all_same y = false -> (d < max_depth s)%Z ->
  find_best_split E (header x fn s) x y = Raise e ->
  fit_go E (S fuel) x y d fn s = (header x fn s, Raise e).
Proof.
  intros H Hd Hf. pose proof (all_same_false_length y H) as Hl.
  assert (Hg : Z.geb d (max_depth s) = false).
  { destruct (Z.geb d (max_depth s)) eqn:G; [|reflexivity].
    apply Z.geb_le in G. lia. }
  destruct s as [d0 md [f|] cw cr r], fn;
    cbn [fit_go mbind mget mmodify mret mlift header feature_names set_feature_names max_depth]
      in *;
    rewrite Hl, H, Hg, Hf; reflexivity.
Qed.

(** *** Unknown criterion names *)

Lemma weighted_criterion_unknown (E : pyenv) (self : inst) (split_decision : list bool)
      (y_real : list Q) :
  ~ In (criterion self) known_criteria ->
  length split_decision = length y_real ->
  weighted_criterion E self split_decision y_real = Raise UnboundLocalError.
Proof.
  intros Hc Hl. unfold weighted_criterion.
  rewrite Hl, Nat.eqb_refl. simpl negb. cbv iota.
  assert (H1 : String.eqb (criterion self) "entropy" = false)
    by (apply String.eqb_neq; intro H; apply Hc; rewrite H; simpl; auto).
  assert (H2 : String.eqb (criterion self) "gini" = false)
    by (apply String.eqb_neq; intro H; apply Hc; rewrite H; simpl; auto).
  assert (H3 : String.eqb (criterion self) "neg_corr" = false)
    by (apply String.eqb_neq; intro H; apply Hc; rewrite H; simpl; auto).
  rewrite H1, H2, H3. reflexivity.
Qed.

Lemma find_best_split_unknown (E : pyenv) (self : inst) (x : mat) (y : list Q) :
  ~ In (criterion self) known_criteria ->
  (forall l : list Q, l <> [] -> py_set E l <> []) ->
  (1 <= ncols x)%nat -> length (rows x) = length y -> y <> [] ->
  find_best_split E self x y = Raise UnboundLocalError.
Proof.
  intros Hc Hset Hn Hl Hy. unfold find_best_split, columns.
  destruct (ncols x) as [|n]; [lia|].
  cbn [seq map find_best_split_loop].
  set (c0 := map (fun r => nth 0 r 0) (rows x)).
  assert (Hc0 : c0 <> []).
  { unfold c0. destruct (rows x); [destruct y; [contradiction | discriminate] | discriminate]. }
  unfold split_on_feature.
  destruct (py_set E c0) as [|v vs] eqn:Hs; [exfalso; exact (Hset c0 Hc0 Hs)|].
  cbn [split_on_feature_loop].
  rewrite weighted_criterion_unknown; [reflexivity | assumption |].
  rewrite !length_map. unfold c0. rewrite length_map. exact Hl.
Qed.

(** C4 (amended). [fit] does not check the criterion name up front.
    With a name outside [{entropy, gini, neg_corr}]:
    - [weighted_criterion] raises [UnboundLocalError]: no branch binds
      [criterion_func].
    - A top-level [fit] that reaches the split search raises that error
      there. Reaching it needs non-pure labels, [max_depth > 0], at least
      one column, and rows matching the labels.
    - A [fit] that ends in a base case (empty or pure labels, or
      [max_depth <= 0]) returns normally. *)
Theorem C4_unknown_criterion_fails_at_split_search (E : pyenv) (st : inst) (x : mat)
        (y : list Q) (fn : option (list string)) :
  ~ In (criterion st) known_criteria ->
  (forall split_decision, length split_decision = length y ->
     weighted_criterion E st split_decision y = Raise UnboundLocalError) /\
  ((forall l : list Q, l <> [] -> py_set E l <> []) ->
   all_same y = false -> (0 < max_depth st)%Z -> (1 <= ncols x)%nat ->
   length (rows x) = length y ->
   snd (fit E x y 0 fn st) = Raise UnboundLocalError) /\
  (all_same y = true \/ (max_depth st <= 0)%Z -> exists r, snd (fit E x y 0 fn st) = Ok r).
Proof.
  intro Hc. split; [|split].
  - intros sd Hl. apply weighted_criterion_unknown; assumption.
  - intros Hset Hy Hmd Hn Hl. unfold fit, fit_fuel.
    rewrite (fit_go_split_raises E _ x y 0 fn st UnboundLocalError Hy Hmd); [reflexivity|].
    apply find_best_split_unknown; try assumption.
    + rewrite header_criterion. assumption.
    + intro H0. subst y. discriminate.
  - intros [Hy | Hmd]; unfold fit.
    + rewrite (fit_go_all_same E _ x y 0 fn st Hy).
      destruct (Nat.eqb (length y) 0); eexists; reflexivity.
    + destruct (all_same y) eqn:Hy.
      * rewrite (fit_go_all_same E _ x y 0 fn st Hy).
        destruct (Nat.eqb (length y) 0); eexists; reflexivity.
      * rewrite (fit_go_max_depth E _ x y 0 fn st Hy Hmd). eexists; reflexivity.
Qed.

Lemma C4_witness :
  (forall split_decision, length split_decision = 2%nat ->
     weighted_criterion cpython_env (fresh 5 "foo") split_decision [0; 1]
     = Raise UnboundLocalError) /\
  ((forall l : list Q, l <> [] -> py_set cpython_env l <> []) ->
   all_same [0; 1] = false -> (0 < 5)%Z -> (1 <= 1)%nat -> length [[0]; [1]] = 2%nat ->
   snd (fit cpython_env (mk_mat 1 [[0]; [1]]) [0; 1] 0 None (fresh 5 "foo"))
   = Raise UnboundLocalError) /\
  (all_same [0; 1] = true \/ (5 <= 0)%Z ->
   exists r, snd (fit cpython_env (mk_mat 1 [[0]; [1]]) [0; 1] 0 None (fresh 5 "foo")) = Ok r).
Proof.
  apply (C4_unknown_criterion_fails_at_split_search cpython_env (fresh 5 "foo")
           (mk_mat 1 [[0]; [1]]) [0; 1] None).
  simpl. intros [H | [H | [H | []]]]; discriminate H.
Defined.

(** C7. A non-empty label vector whose entries all equal [c]: [fit]
    returns exactly one leaf. Its [val] is [y[0]], equal to [c], and its
    [num_pts] is [len(y)]. This holds at any depth, for any instance and
    feature-name argument. *)
Theorem C7_pure_labels_give_one_leaf (E : pyenv) (x : mat) (y : list Q) (c : Q) (d : Z)
        (fn : option (list string)) (st : inst) :
  y <> [] -> (forall a, In a y -> a == c) ->
  snd (fit E x y d fn st) = Ok [Leaf (hd 0 y) (length y)] /\ hd 0 y == c.
Proof.
  intros Hy Hc.
  assert (Hhd : hd 0 y == c) by (destruct y as [|a y']; [contradiction | apply Hc; left; reflexivity]).
  assert (Hs : all_same y = true).
  { unfold all_same. apply forallb_forall. intros a Ha. apply Qeq_bool_iff.
    rewrite (Hc a Ha), Hhd. reflexivity. }
  split; [|exact Hhd].
  unfold fit. rewrite (fit_go_all_same E _ x y d fn st Hs).
  destruct y; [contradiction | reflexivity].
Qed.

Lemma C7_witness :
  snd (fit cpython_env (mk_mat 1 [[0]; [1]; [2]]) [1; 1; 1] 0 None (fresh 5 "gini"))
  = Ok [Leaf 1 3] /\ 1 == 1.
Proof.
  apply (C7_pure_labels_give_one_leaf cpython_env (mk_mat 1 [[0]; [1]; [2]]) [1; 1; 1] 1 0 None
           (fresh 5 "gini")).
  - discriminate.
  - intros a [<- | [<- | [<- | []]]]; reflexivity.
Defined.

(** C8 (amended). A fresh instance with [max_depth = 0], fitted on a
    non-pure label vector, returns the empty rule list. The call stops at
    base case 3 and never assigns [rules_]. So for every matrix with at
    least one row, [predict_proba] and [predict] raise [AttributeError].
    A matrix with no rows gives an empty result instead (lemma
    [C8_no_rows_no_error]). *)
Theorem C8_depth0_empty_list_then_attribute_error (E : pyenv) (x : mat) (y : list Q)
        (fn : option (list string)) (cw : option (list (Q * Q))) (crit : string) (X : mat) :
  all_same y = false -> rows X <> [] ->
  snd (fit E x y 0 fn (new_inst 0 cw crit)) = Ok [] /\
  predict_proba (fst (fit E x y 0 fn (new_inst 0 cw crit))) X = Raise AttributeError /\
  predict (fst (fit E x y 0 fn (new_inst 0 cw crit))) X = Raise AttributeError.
Proof.
  intros Hy HX. unfold fit.
  rewrite (fit_go_max_depth E _ x y 0 fn (new_inst 0 cw crit) Hy); [|simpl; lia].
  simpl fst. simpl snd.
  assert (Hr : rules_ (header x fn (new_inst 0 cw crit)) = None)
    by (rewrite header_rules; reflexivity).
  split; [reflexivity|].
  split; [apply predict_proba_no_rules | apply predict_no_rules]; assumption.
Qed.

Lemma C8_witness :
  snd (fit cpython_env (mk_mat 1 [[0]; [1]]) [0; 1] 0 None (new_inst 0 None "gini")) = Ok [] /\
  predict_proba (fst (fit cpython_env (mk_mat 1 [[0]; [1]]) [0; 1] 0 None (new_inst 0 None "gini")))
                (mk_mat 1 [[3]]) = Raise AttributeError /\
  predict (fst (fit cpython_env (mk_mat 1 [[0]; [1]]) [0; 1] 0 None (new_inst 0 None "gini")))
          (mk_mat 1 [[3]]) = Raise AttributeError.
Proof.
  apply (C8_depth0_empty_list_then_attribute_error cpython_env (mk_mat 1 [[0]; [1]]) [0; 1] None
           None "gini" (mk_mat 1 [[3]])).
  - reflexivity.
  - discriminate.
Defined.

(** C10 (amended). A top-level [fit] that ends in a base case leaves
    [rules_] as it was. The base cases are: empty or all-equal labels, or
    [max_depth <= 0] at depth 0. After such a call, [predict_proba] and
    [predict] answer exactly as before it, from the earlier rule list if
    there is one. On an instance that never had [rules_] (a fresh one),
    they raise [AttributeError] for every matrix with at least one row. A
    matrix with no rows gives an empty result (lemma
    [C10_no_rows_no_error]). *)
Theorem C10_base_case_fit_keeps_rules (E : pyenv) (x : mat) (y : list Q)
        (fn : option (list string)) (st : inst) (X : mat) :
  all_same y = true \/ (max_depth st <= 0)%Z ->
  rules_ (fst (fit E x y 0 fn st)) = rules_ st /\
  predict_proba (fst (fit E x y 0 fn st)) X = predict_proba st X /\
  predict (fst (fit E x y 0 fn st)) X = predict st X /\
  (rules_ st = None -> rows X <> [] ->
   predict_proba (fst (fit E x y 0 fn st)) X = Raise AttributeError /\
   predict (fst (fit E x y 0 fn st)) X = Raise AttributeError).
Proof.
  intro Hb.
  assert (Hr : rules_ (fst (fit E x y 0 fn st)) = rules_ st).
  { unfold fit. destruct (all_same y) eqn:Hy.
    - rewrite (fit_go_all_same E _ x y 0 fn st Hy). apply header_rules.
    - destruct Hb as [Hb | Hb]; [discriminate|].
      rewrite (fit_go_max_depth E _ x y 0 fn st Hy Hb). apply header_rules. }
  split; [exact Hr|].
  split; [apply predict_proba_rules; exact Hr|].
  split; [apply predict_rules; exact Hr|].
  intros Hn HX. rewrite Hn in Hr.
  split; [apply predict_proba_no_rules | apply predict_no_rules]; assumption.
Qed.

Lemma C10_witness :
  let st := fst (fit cpython_env (mk_mat 1 [[0]; [1]]) [0; 1] 0 None (fresh 5 "gini")) in
  rules_ (fst (fit cpython_env (mk_mat 1 [[7]]) [1] 0 None st)) = rules_ st /\
  predict_proba (fst (fit cpython_env (mk_mat 1 [[7]]) [1] 0 None st)) (mk_mat 1 [[1]])
  = predict_proba st (mk_mat 1 [[1]]) /\
  predict (fst (fit cpython_env (mk_mat 1 [[7]]) [1] 0 None st)) (mk_mat 1 [[1]])
  = predict st (mk_mat 1 [[1]]) /\
  (rules_ st = None -> rows (mk_mat 1 [[1]]) <> [] ->
   predict_proba (fst (fit cpython_env (mk_mat 1 [[7]]) [1] 0 None st)) (mk_mat 1 [[1]])
   = Raise AttributeError /\
   predict (fst (fit cpython_env (mk_mat 1 [[7]]) [1] 0 None st)) (mk_mat 1 [[1]])
   = Raise AttributeError).
Proof.
  intro st.
  apply (C10_base_case_fit_keeps_rules cpython_env (mk_mat 1 [[7]]) [1] None st (mk_mat 1 [[1]])).
  left. reflexivity.
Defined.

(** *** What [fit] depends on *)

Lemma weighted_criterion_cfg (E : pyenv) (s1 s2 : inst) (sd : list bool) (yr : list Q) :
  class_weight s1 = class_weight s2 -> criterion s1 = criterion s2 ->
  weighted_criterion E s1 sd yr = weighted_criterion E s2 sd yr.
Proof. intros H1 H2. unfold weighted_criterion. rewrite H1, H2. reflexivity. Qed.

Lemma split_on_feature_loop_cfg (E : pyenv) (s1 s2 : inst) (col y : list Q) :
  class_weight s1 = class_weight s2 -> criterion s1 = criterion s2 ->
  forall values acc,
  split_on_feature_loop E s1 col y values acc = split_on_feature_loop E s2 col y values acc.
Proof.
  intros H1 H2 values. induction values as [|v vs IH]; intro acc; [reflexivity|].
  simpl. rewrite (weighted_criterion_cfg E s1 s2 _ y H1 H2).
  destruct (weighted_criterion E s2 _ y) as [[cv|]|e]; simpl; auto.
Qed.

Lemma find_best_split_cfg (E : pyenv) (s1 s2 : inst) (x : mat) (y : list Q) :
  class_weight s1 = class_weight s2 -> criterion s1 = criterion s2 ->
  find_best_split E s1 x y = find_best_split E s2 x y.
Proof.
  intros H1 H2. unfold find_best_split.
  generalize 0%nat (None : option nat, None : option Q, big).
  induction (columns x) as [|c cs IH]; intros i acc; [reflexivity|].
  simpl. unfold split_on_feature.
  rewrite (split_on_feature_loop_cfg E s1 s2 c y H1 H2).
  destruct (split_on_feature_loop E s2 c y _ _) as [[cv cut]|e]; simpl; [|reflexivity].
  destruct (flt_eq cv (Fin 0)); [reflexivity|].
  destruct acc as [[oc ocut] mv]. destruct (flt_le cv mv); apply IH.
Qed.

Lemma agree_refl (s : inst) : agree s s.
Proof. repeat split. Qed.

Lemma rel_ret {A} (a : A) : rel (mret a) (mret a).
Proof. intros s1 s2 H. split; [reflexivity | exact H]. Qed.

Lemma rel_raise {A} (e : exc) : rel (A := A) (mraise e) (mraise e).
Proof. intros s1 s2 H. split; [reflexivity | exact H]. Qed.

Lemma rel_lift {A} (r : pyres A) : rel (mlift r) (mlift r).
Proof. intros s1 s2 H. split; [reflexivity | exact H]. Qed.

Lemma rel_modify (f : inst -> inst) :
  (forall s1 s2, agree s1 s2 -> agree (f s1) (f s2)) -> rel (mmodify f) (mmodify f).
Proof. intros Hf s1 s2 H. split; [reflexivity | apply Hf; exact H]. Qed.

Lemma rel_bind {A B} (m1 m2 : M A) (k1 k2 : A -> M B) :
  rel m1 m2 -> (forall a, rel (k1 a) (k2 a)) -> rel (mbind m1 k1) (mbind m2 k2).
Proof.
  intros Hm Hk s1 s2 H. unfold mbind.
  destruct (Hm s1 s2 H) as [Hr Ha].
  destruct (m1 s1) as [t1 r1], (m2 s2) as [t2 r2]. simpl in Hr, Ha. subst r2.
  destruct r1 as [a|e]; [apply Hk; exact Ha | split; [reflexivity | exact Ha]].
Qed.

Lemma rel_get {B} (k1 k2 : inst -> M B) :
  (forall s1 s2, agree s1 s2 -> rel (k1 s1) (k2 s2)) -> rel (mbind mget k1) (mbind mget k2).
Proof. intros Hk s1 s2 H. unfold mbind, mget. apply Hk; exact H. Qed.

Lemma agree_set_feature_names (fn : list string) (s1 s2 : inst) :
  agree s1 s2 -> agree (set_feature_names fn s1) (set_feature_names fn s2).
Proof. intros (H1 & H2 & H3 & H4). repeat split; simpl; assumption. Qed.

Lemma agree_set_rules (rs : list rule) (s1 s2 : inst) :
  agree s1 s2 -> agree (set_rules rs s1) (set_rules rs s2).
Proof. intros (H1 & H2 & H3 & H4). repeat split; simpl; assumption. Qed.

Lemma agree_incr_depth (s1 s2 : inst) : agree s1 s2 -> agree (incr_depth s1) (incr_depth s2).
Proof. intros (H1 & H2 & H3 & H4). repeat split; simpl; assumption. Qed.

(** The part of [fit_go] before the [fuel] test *)
Ltac fit_header_rel :=
  apply rel_get; intros ?s1 ?s2 ?Hs;
  refine (rel_bind _ _ _ _ _ _);
  [ match goal with H : agree ?a ?b |- _ =>
      destruct H as (_ & _ & _ & ->); destruct (feature_names b);
      [apply rel_ret | apply rel_modify; intros ?t1 ?t2; apply agree_set_feature_names]
    end
  | intros _ ];
  refine (rel_bind _ _ _ _ _ _);
  [ match goal with |- rel (match ?fn with _ => _ end) _ =>
      destruct fn;
      [apply rel_modify; intros ?t1 ?t2; apply agree_set_feature_names | apply rel_ret]
    end
  | intros _ ];
  apply rel_get.

Lemma fit_go_rel (E : pyenv) (fuel : nat) :
  forall x y d fn, rel (fit_go E fuel x y d fn) (fit_go E fuel x y d fn).
Proof.
  induction fuel as [|fuel IH]; intros x y d fn; cbn [fit_go]; fit_header_rel;
    intros t1 t2 Ht; pose proof Ht as (Hmd & Hcw & Hcr & Hf);
    rewrite Hmd;
    (destruct (Nat.eqb (length y) 0); [apply rel_ret|]);
    (destruct (all_same y); [apply rel_ret|]);
    (destruct (Z.geb d (max_depth t2)); [apply rel_ret|]).
  - apply rel_raise.
  - rewrite (find_best_split_cfg E t1 t2 x y Hcw Hcr).
    refine (rel_bind _ _ _ _ (rel_lift _) _). intros [[oc ocut] cv].
    destruct oc as [col|], ocut as [cutoff|]; try apply rel_raise.
    refine (rel_bind _ _ _ _ (rel_lift _) _). intros y_left.
    refine (rel_bind _ _ _ _ (rel_lift _) _). intros y_right.
    destruct (flt_gt (np_mean y_left) (np_mean y_right)); rewrite Hf;
      refine (rel_bind _ _ _ _ (rel_lift _) _); intros name;
      refine (rel_bind _ _ _ _ (IH _ _ _ _) _); intros rest;
      refine (rel_bind _ _ _ _ (rel_modify _ agree_incr_depth) _); intros _;
      refine (rel_bind _ _ _ _ (rel_modify _ (agree_set_rules _)) _); intros _;
      apply rel_ret.
Qed.

Lemma agree_sym (s1 s2 : inst) : agree s1 s2 -> agree s2 s1.
Proof. intros (H1 & H2 & H3 & H4). repeat split; symmetry; assumption. Qed.

Lemma agree_trans (s1 s2 s3 : inst) : agree s1 s2 -> agree s2 s3 -> agree s1 s3.
Proof.
  intros (H1 & H2 & H3 & H4) (G1 & G2 & G3 & G4).
  repeat split; etransitivity; eassumption.
Qed.

Lemma agree_header (x : mat) (fn : option (list string)) (s1 s2 : inst) :
  agree s1 s2 -> agree (header x fn s1) (header x fn s2).
Proof.
  intros (H1 & H2 & H3 & H4).
  destruct s1 as [d1 md1 [f1|] cw1 cr1 r1], s2 as [d2 md2 [f2|] cw2 cr2 r2], fn;
    simpl in *; try discriminate; repeat split; simpl; congruence.
Qed.

Lemma agree_header_idem (x : mat) (fn : option (list string)) (s : inst) :
  agree (header x fn (header x fn s)) (header x fn s).
Proof. destruct s as [d md [f|] cw cr r], fn; repeat split. Qed.

(** [fit_go] is its header followed by the same code with no
    [feature_names] argument. *)
Lemma fit_go_header (E : pyenv) (fuel : nat) (x : mat) (y : list Q) (d : Z)
      (fn : option (list string)) (s : inst) :
  fit_go E fuel x y d fn s = fit_go E fuel x y d None (header x fn s).
Proof. destruct fuel, s as [d0 md [f|] cw cr r], fn; reflexivity. Qed.

Lemma keeps_ret {A} (a : A) : keeps (mret a).
Proof. intros s _. apply agree_refl. Qed.

Lemma keeps_raise {A} (e : exc) : keeps (A := A) (mraise e).
Proof. intros s _. apply agree_refl. Qed.

Lemma keeps_lift {A} (r : pyres A) : keeps (mlift r).
Proof. intros s _. apply agree_refl. Qed.

Lemma keeps_modify (f : inst -> inst) : (forall s, agree (f s) s) -> keeps (mmodify f).
Proof. intros Hf s _. apply Hf. Qed.

Lemma keeps_bind {A B} (m : M A) (k : A -> M B) :
  keeps m -> (forall a, keeps (k a)) -> keeps (mbind m k).
Proof.
  intros Hm Hk s Hs. unfold mbind.
  pose proof (Hm s Hs) as Ha.
  destruct (m s) as [s' [a|e]]; simpl in *; [|exact Ha].
  apply (agree_trans _ s'); [|exact Ha].
  apply Hk. destruct Ha as (_ & _ & _ & ->). exact Hs.
Qed.

Lemma keeps_get {B} (k : inst -> M B) :
  (forall s0, feature_names s0 <> None -> keeps (k s0)) -> keeps (mbind mget k).
Proof. intros Hk s Hs. unfold mbind, mget. apply Hk; exact Hs. Qed.

Lemma fit_go_keeps (E : pyenv) (fuel : nat) :
  forall x y d, keeps (fit_go E fuel x y d None).
Proof.
  induction fuel as [|fuel IH]; intros x y d; cbn [fit_go];
    apply keeps_get; intros s0 Hs0;
    (apply keeps_bind;
     [ destruct (feature_names s0); [apply keeps_ret | contradiction] | intros _ ]);
    (apply keeps_bind; [apply keeps_ret | intros _]);
    apply keeps_get; intros t Ht;
    (destruct (Nat.eqb (length y) 0); [apply keeps_ret|]);
    (destruct (all_same y); [apply keeps_ret|]);
    (destruct (Z.geb d (max_depth t)); [apply keeps_ret|]).
  - apply keeps_raise.
  - apply keeps_bind; [apply keeps_lift|]. intros [[oc ocut] cv].
    destruct oc as [col|], ocut as [cutoff|]; try apply keeps_raise.
    apply keeps_bind; [apply keeps_lift|]. intros y_left.
    apply keeps_bind; [apply keeps_lift|]. intros y_right.
    destruct (flt_gt (np_mean y_left) (np_mean y_right));
      (apply keeps_bind; [apply keeps_lift|]); intros name;
      (apply keeps_bind; [apply IH|]); intros rest;
      (apply keeps_bind; [apply keeps_modify; intro s; repeat split|]); intros _;
      (apply keeps_bind; [apply keeps_modify; intro s; repeat split|]); intros _;
      apply keeps_ret.
Qed.

Lemma header_has_names (x : mat) (fn : option (list string)) (s : inst) :
  feature_names (header x fn s) <> None.
Proof. destruct s as [d md [f|] cw cr r], fn; discriminate. Qed.

(** After [fit], the instance agrees with the state left by the header. *)
Lemma fit_go_final (E : pyenv) (fuel : nat) (x : mat) (y : list Q) (d : Z)
      (fn : option (list string)) (s : inst) :
  agree (fst (fit_go E fuel x y d fn s)) (header x fn s).
Proof.
  rewrite fit_go_header. apply fit_go_keeps. apply header_has_names.
Qed.

(** C9 (amended). [fit] is deterministic. Its result is a function of the
    inputs and of the instance's [max_depth], [class_weight], [criterion]
    and stored [feature_names]. Two instances that agree on these give
    the same result on the same inputs. Re-fitting an instance on the
    inputs it was just fitted on gives the same result again. An instance
    whose [feature_names] were stored by an earlier [fit] on other data is
    not covered: see [C9_fit_history_changes_result]. *)
Theorem C9_fit_deterministic_and_refit_stable (E : pyenv) (x : mat) (y : list Q) (d : Z)
        (fn : option (list string)) (s1 s2 : inst) :
  agree s1 s2 ->
  snd (fit E x y d fn s1) = snd (fit E x y d fn s2) /\
  snd (fit E x y d fn (fst (fit E x y d fn s1))) = snd (fit E x y d fn s1).
Proof.
  intro Hag. unfold fit.
  assert (Hfuel : fit_fuel s1 d = fit_fuel s2 d)
    by (unfold fit_fuel; destruct Hag as (-> & _); reflexivity).
  split.
  - rewrite Hfuel. apply (fit_go_rel E _ x y d fn s1 s2 Hag).
  - set (F := fit_fuel s1 d).
    set (s' := fst (fit_go E F x y d fn s1)).
    assert (Hs' : agree s' (header x fn s1)) by apply fit_go_final.
    assert (HF : fit_fuel s' d = F).
    { unfold F, fit_fuel. destruct Hs' as (-> & _). rewrite header_max_depth. reflexivity. }
    rewrite HF, (fit_go_header E F x y d fn s'), (fit_go_header E F x y d fn s1).
    apply (fit_go_rel E F x y d None).
    apply (agree_trans _ (header x fn (header x fn s1))).
    + apply agree_header. exact Hs'.
    + apply agree_header_idem.
Qed.

Lemma C9_witness :
  snd (fit cpython_env (mk_mat 1 [[0]; [1]]) [0; 1] 0 None (fresh 5 "gini"))
  = snd (fit cpython_env (mk_mat 1 [[0]; [1]]) [0; 1] 0 None
           (mk_inst 7 5 None None "gini" (Some []))) /\
  snd (fit cpython_env (mk_mat 1 [[0]; [1]]) [0; 1] 0 None
         (fst (fit cpython_env (mk_mat 1 [[0]; [1]]) [0; 1] 0 None (fresh 5 "gini"))))
  = snd (fit cpython_env (mk_mat 1 [[0]; [1]]) [0; 1] 0 None (fresh 5 "gini")).
Proof.
  apply (C9_fit_deterministic_and_refit_stable cpython_env (mk_mat 1 [[0]; [1]]) [0; 1] 0 None
           (fresh 5 "gini") (mk_inst 7 5 None None "gini" (Some []))).
  repeat split.
Defined.

(** *** The fuel given by [fit] is never exhausted *)

Lemma weighted_criterion_not_rec (E : pyenv) (self : inst) (sd : list bool) (yr : list Q) :
  weighted_criterion E self sd yr <> Raise RecursionError.
Proof.
  unfold weighted_criterion.
  destruct (negb _); [discriminate|].
  destruct (String.eqb _ "entropy"); [discriminate|].
  destruct (String.eqb _ "gini"); [discriminate|].
  destruct (String.eqb _ "neg_corr"); discriminate.
Qed.

Lemma split_on_feature_loop_not_rec (E : pyenv) (self : inst) (col y : list Q) :
  forall values acc, split_on_feature_loop E self col y values acc <> Raise RecursionError.
Proof.
  induction values as [|v vs IH]; intro acc; simpl; [discriminate|].
  pose proof (weighted_criterion_not_rec E self (map (fun a => Qltb a v) col) y) as H.
  destruct (weighted_criterion E self _ y) as [[cv|]|e]; simpl; [apply IH | discriminate |].
  intro Hc. injection Hc as ->. apply H. reflexivity.
Qed.

Lemma find_best_split_not_rec (E : pyenv) (self : inst) (x : mat) (y : list Q) :
  find_best_split E self x y <> Raise RecursionError.
Proof.
  unfold find_best_split.
  generalize 0%nat (None : option nat, None : option Q, big).
  induction (columns x) as [|c cs IH]; intros i acc; simpl; [discriminate|].
  unfold split_on_feature.
  pose proof (split_on_feature_loop_not_rec E self c y (py_set E c) (big, 1 # 2)) as H.
  destruct (split_on_feature_loop E self c y _ _) as [[cv cut]|e]; simpl;
    [| intro Hc; injection Hc as ->; apply H; reflexivity].
  destruct (flt_eq cv (Fin 0)); [discriminate|].
  destruct acc as [[oc ocut] mv]. destruct (flt_le cv mv); apply IH.
Qed.

Lemma bool_index_not_rec {A} (mask : list bool) (l : list A) :
  bool_index mask l <> Raise RecursionError.
Proof. unfold bool_index. destruct (Nat.eqb _ _); discriminate. Qed.

Lemma py_index_not_rec {A} (l : list A) (i : nat) : py_index l i <> Raise RecursionError.
Proof. unfold py_index. destruct (nth_error l i); discriminate. Qed.

Lemma bounded_ret {A} md (a : A) : bounded md (mret a).
Proof. intros s Hs. split; [exact Hs | discriminate]. Qed.

Lemma bounded_lift {A} md (r : pyres A) : r <> Raise RecursionError -> bounded md (mlift r).
Proof. intros Hr s Hs. split; assumption. Qed.

Lemma bounded_raise {A} md (e : exc) : e <> RecursionError -> bounded (A := A) md (mraise e).
Proof. intros He s Hs. split; [exact Hs|]. intro H. injection H. exact He. Qed.

Lemma bounded_modify md (f : inst -> inst) :
  (forall s, max_depth (f s) = max_depth s) -> bounded md (mmodify f).
Proof. intros Hf s Hs. unfold mmodify; simpl. split; [rewrite Hf; exact Hs | discriminate]. Qed.

Lemma bounded_bind {A B} md (m : M A) (k : A -> M B) :
  bounded md m -> (forall a, bounded md (k a)) -> bounded md (mbind m k).
Proof.
  intros Hm Hk s Hs. unfold mbind.
  destruct (Hm s Hs) as [H1 H2].
  destruct (m s) as [s' [a|e]]; simpl in *; [apply Hk; exact H1 |].
  split; [exact H1|]. intro Hc. injection Hc as ->. apply H2. reflexivity.
Qed.

Lemma bounded_get {B} md (k : inst -> M B) :
  (forall s0, max_depth s0 = md -> bounded md (k s0)) -> bounded md (mbind mget k).
Proof. intros Hk s Hs. unfold mbind, mget. apply Hk; assumption. Qed.

Lemma fit_go_bounded (E : pyenv) (fuel : nat) :
  forall x y d fn md, (Z.to_nat (md - d) < fuel)%nat -> bounded md (fit_go E fuel x y d fn).
Proof.
  induction fuel as [|fuel IH]; intros x y d fn md Hf; [lia|]. cbn [fit_go].
  apply bounded_get; intros s0 Hs0.
  apply bounded_bind; [destruct (feature_names s0); [apply bounded_ret |
    apply bounded_modify; reflexivity] | intros _].
  apply bounded_bind; [destruct fn; [apply bounded_modify; reflexivity | apply bounded_ret]
    | intros _].
  apply bounded_get; intros t Ht.
  destruct (Nat.eqb (length y) 0); [apply bounded_ret|].
  destruct (all_same y); [apply bounded_ret|].
  destruct (Z.geb d (max_depth t)) eqn:Hg; [apply bounded_ret|].
  assert (Hlt : (d < max_depth t)%Z).
  { destruct (Z_lt_le_dec d (max_depth t)) as [L|L]; [exact L|].
    apply Z.geb_le in L. congruence. }
  apply bounded_bind; [apply bounded_lift, find_best_split_not_rec|]. intros [[oc ocut] cv].
  destruct oc as [col|], ocut as [cutoff|];
    try (apply bounded_raise; discriminate).
  apply bounded_bind; [apply bounded_lift, bool_index_not_rec|]. intros y_left.
  apply bounded_bind; [apply bounded_lift, bool_index_not_rec|]. intros y_right.
  destruct (flt_gt (np_mean y_left) (np_mean y_right));
    (apply bounded_bind;
     [apply bounded_lift; destruct (feature_names t);
        [apply py_index_not_rec | discriminate] |]); intros name;
    (apply bounded_bind; [apply IH; lia|]); intros rest;
    (apply bounded_bind; [apply bounded_modify; reflexivity|]); intros _;
    (apply bounded_bind; [apply bounded_modify; reflexivity|]); intros _;
    apply bounded_ret.
Qed.

(** [fit] never reaches the [RecursionError] branch of [fit_go]. The
    [depth >= max_depth] test always stops the recursion first. *)
Lemma fit_go_fuel (E : pyenv) (x : mat) (y : list Q) (d : Z) (fn : option (list string))
      (s : inst) :
  snd (fit E x y d fn s) <> Raise RecursionError.
Proof.
  unfold fit, fit_fuel.
  apply (fit_go_bounded E _ x y d fn (max_depth s)); [lia | reflexivity].
Qed.

(** ** Lemmas on fitted rule lists, criteria and predictions *)

(* ---------- lists ---------- *)

Lemma bool_index_ok {A} (m : list bool) (l r : list A) :
  bool_index m l = Ok r -> r = sel m l /\ length m = length l.
Proof.
  unfold bool_index, sel. destruct (Nat.eqb_spec (length m) (length l)) as [H|H];
    intro E; [injection E as <-; split; [reflexivity | exact H] | discriminate].
Qed.

Lemma sel_length_split {A} : forall (m : list bool) (l : list A),
  length m = length l -> (length (sel m l) + length (sel (map negb m) l) = length l)%nat.
Proof.
  unfold sel. induction m as [|b m IH]; destruct l as [|a l]; intro H;
    try discriminate; [reflexivity|].
  injection H as H. specialize (IH l H). destruct b; simpl; lia.
Qed.

Lemma sel_sum_split : forall (m : list bool) (l : list Q),
  length m = length l -> Qsum (sel m l) + Qsum (sel (map negb m) l) == Qsum l.
Proof.
  unfold sel. induction m as [|b m IH]; destruct l as [|a l]; intro H;
    try discriminate; [reflexivity|].
  injection H as H. specialize (IH l H). unfold Qsum in *.
  destruct b; simpl; rewrite <- IH; ring.
Qed.

Lemma Forall_sel {A} (P : A -> Prop) (m : list bool) (l : list A) :
  Forall P l -> Forall P (sel m l).
Proof.
  intro H. unfold sel. apply Forall_forall. intros a Ha.
  apply in_map_iff in Ha as [[b a'] [<- Hin]].
  apply filter_In in Hin as [Hin _]. apply in_combine_r in Hin.
  rewrite Forall_forall in H. exact (H a' Hin).
Qed.

(* ---------- means ---------- *)

Lemma Qlen_cons {A} (a : A) (l : list A) : Qlen (a :: l) == Qlen l + 1.
Proof.
  unfold Qlen. simpl length. rewrite Nat2Z.inj_succ, <- Z.add_1_r, inject_Z_plus.
  reflexivity.
Qed.

Lemma Qlen_pos {A} (l : list A) : l <> [] -> 0 < Qlen l.
Proof.
  destruct l as [|a l]; [congruence|]. intros _. unfold Qlen.
  change 0 with (inject_Z 0). rewrite <- Zlt_Qlt. simpl length. lia.
Qed.

Lemma Qlen_add {A} (l1 l2 l : list A) :
  (length l1 + length l2 = length l)%nat -> Qlen l1 + Qlen l2 == Qlen l.
Proof.
  intro H. unfold Qlen. rewrite <- inject_Z_plus, <- Nat2Z.inj_add, H. reflexivity.
Qed.

Lemma np_mean_ne (l : list Q) : l <> [] -> np_mean l = Fin (Qsum l / Qlen l).
Proof. destruct l; [congruence | reflexivity]. Qed.

Lemma Qneq0 (q : Q) : 0 < q -> ~ q == 0.
Proof. intros H E. rewrite E in H. exact (Qlt_irrefl 0 H). Qed.

(** Merging a group into one with a mean at least as high keeps the
    merged mean at most the higher one *)
Lemma Qmerge_le (a b nl nr : Q) :
  0 < nl -> 0 < nr -> a / nl <= b / nr -> (a + b) / (nl + nr) <= b / nr.
Proof.
  intros Hl Hr H.
  assert (Ha : a == (a / nl) * nl) by (field; apply Qneq0; exact Hl).
  assert (Hb : b == (b / nr) * nr) by (field; apply Qneq0; exact Hr).
  apply Qle_shift_div_r; [lra|].
  assert (Hm : (a / nl) * nl <= (b / nr) * nl) by (apply Qmult_le_compat_r; lra).
  rewrite Ha at 1. rewrite Hb at 1. lra.
Qed.

Lemma flt_gt_Fin (p q : Q) : flt_gt (Fin p) (Fin q) = true <-> q < p.
Proof.
  unfold flt_gt. rewrite !flt_le_Fin. split.
  - intro H. apply andb_prop in H as [_ H]. apply negb_true_iff in H.
    apply Qnot_le_lt. intro C. apply Qle_bool_iff in C. congruence.
  - intro H. apply andb_true_intro. split.
    + apply Qle_bool_iff. apply Qlt_le_weak. exact H.
    + apply negb_true_iff. destruct (Qle_bool p q) eqn:E; [|reflexivity].
      apply Qle_bool_iff in E. exfalso. apply (Qlt_not_le q p H E).
Qed.

Lemma flt_gt_Fin_false (p q : Q) : flt_gt (Fin p) (Fin q) = false -> p <= q.
Proof.
  intro H. apply Qnot_lt_le. intro C. apply flt_gt_Fin in C. congruence.
Qed.

(** The node built by a split step: after the optional swap, its right side
    is empty (mean NaN) or has a mean at least the group's mean. *)
Lemma split_right_step (yl yr y : list Q) :
  (length yl + length yr = length y)%nat -> Qsum yl + Qsum yr == Qsum y -> y <> [] ->
  let yr' := if flt_gt (np_mean yl) (np_mean yr) then yl else yr in
  (length yr' = 0%nat /\ np_mean yr' = NaN) \/ flt_le (np_mean y) (np_mean yr') = true.
Proof.
  intros Hlen Hsum Hy. cbv zeta.
  pose proof (Qlen_add yl yr y Hlen) as Hn.
  rewrite (np_mean_ne y Hy).
  destruct yl as [|a l].
  - destruct yr as [|b r]; [simpl in Hlen; destruct y; [congruence | discriminate]|].
    right. rewrite np_mean_ne by discriminate. simpl flt_gt. cbv iota.
    rewrite flt_le_Fin. apply Qle_bool_iff. rewrite <- Hsum, <- Hn.
    setoid_replace (Qsum [] + Qsum (b :: r)) with (Qsum (b :: r)) by (simpl; ring).
    setoid_replace (Qlen (@nil Q) + Qlen (b :: r)) with (Qlen (b :: r))
      by (unfold Qlen; simpl; ring).
    apply Qle_refl.
  - destruct yr as [|b r].
    + left. simpl. split; reflexivity.
    + right.
      change (np_mean (a :: l)) with (Fin (Qsum (a :: l) / Qlen (a :: l))).
      change (np_mean (b :: r)) with (Fin (Qsum (b :: r) / Qlen (b :: r))).
      pose proof (Qlen_pos (a :: l) ltac:(discriminate)) as Pl.
      pose proof (Qlen_pos (b :: r) ltac:(discriminate)) as Pr.
      destruct (flt_gt _ _) eqn:G; cbv iota.
      * rewrite (np_mean_ne (a :: l)) by discriminate. apply flt_gt_Fin in G. rewrite flt_le_Fin. apply Qle_bool_iff.
        rewrite <- Hsum, <- Hn.
        rewrite (Qplus_comm (Qsum (a :: l))), (Qplus_comm (Qlen (a :: l))).
        apply Qmerge_le; [exact Pr | exact Pl | apply Qlt_le_weak; exact G].
      * rewrite (np_mean_ne (b :: r)) by discriminate.
        apply flt_gt_Fin_false in G. rewrite flt_le_Fin. apply Qle_bool_iff.
        rewrite <- Hsum, <- Hn.
        apply Qmerge_le; assumption.
Qed.

(** The mean of numbers in [[lo, hi]] is in [[lo, hi]]. *)
Lemma Qsum_bounds (lo hi : Q) (y : list Q) :
  Forall (fun a => lo <= a <= hi) y -> lo * Qlen y <= Qsum y /\ Qsum y <= hi * Qlen y.
Proof.
  induction y as [|a y IH]; intro H.
  - change (Qlen (@nil Q)) with 0. change (Qsum []) with 0. split; lra.
  - inversion H as [|? ? [Ha1 Ha2] Hrest]; subst. specialize (IH Hrest) as [I1 I2].
    rewrite Qlen_cons. unfold Qsum in *; simpl. split; lra.
Qed.

Lemma mean_within (lo hi : Q) (y : list Q) :
  y <> [] -> Forall (fun a => lo <= a <= hi) y ->
  lo <= Qsum y / Qlen y /\ Qsum y / Qlen y <= hi.
Proof.
  intros Hy H. pose proof (Qlen_pos y Hy) as P. destruct (Qsum_bounds lo hi y H).
  split; [apply Qle_shift_div_l | apply Qle_shift_div_r]; try assumption.
Qed.

Lemma find_best_split_loop_shape (E : pyenv) (self : inst) (y : list Q) :
  forall cs i acc r,
  best_split_shape (i + length cs) acc ->
  find_best_split_loop E self y i cs acc = Ok r -> best_split_shape (i + length cs) r.
Proof.
  induction cs as [|c cs IH]; intros i acc r Hacc H; simpl in H.
  - injection H as <-. exact Hacc.
  - destruct (split_on_feature E self c y) as [[cv cut]|e]; simpl in H; [|discriminate].
    replace (i + length (c :: cs))%nat with (S i + length cs)%nat in * by (simpl; lia).
    destruct (flt_eq cv (Fin 0)).
    + injection H as <-. right. exists i, cut, cv. split; [reflexivity | lia].
    + destruct acc as [[oc ocut] mv].
      destruct (flt_le cv mv); refine (IH _ _ _ _ H).
      * right. exists i, cut, cv. split; [reflexivity | lia].
      * exact Hacc.
Qed.

Lemma length_columns (x : mat) : length (columns x) = ncols x.
Proof. unfold columns. rewrite length_map, length_seq. reflexivity. Qed.

Lemma find_best_split_shape (E : pyenv) (self : inst) (x : mat) (y : list Q) r :
  find_best_split E self x y = Ok r -> best_split_shape (ncols x) r.
Proof.
  unfold find_best_split. intro H. rewrite <- length_columns.
  apply (find_best_split_loop_shape E self y (columns x) 0 _ _ (or_introl eq_refl) H).
Qed.

Ltac inv_nil :=
  simpl; refine (conj I (conj I (conj (Forall_nil _) (conj _ (conj _ (conj _ eq_refl))))));
  [intros; constructor | lia | lia].

Lemma fit_go_inv (E : pyenv) (fuel : nat) :
  forall x y d s fns l s',
  feature_names s = Some fns ->
  fit_go E fuel x y d None s = (s', Ok l) ->
  rule_shape (ncols x) fns l /\ counts_chain (length y) l /\ Forall right_not_below l /\
  (forall lo hi, Forall (fun a => lo <= a <= hi) y -> Forall (val_within lo hi) l) /\
  (nsplits l <= Z.to_nat (max_depth s - d))%nat /\
  depth s' = (depth s + Z.of_nat (nsplits l))%Z /\
  rules_ s' = (if Nat.eqb (nsplits l) 0 then rules_ s else Some l).
Proof.
  induction fuel as [|fuel IH]; intros x y d s fns l s' Hfn H;
    destruct s as [d0 md fno cw cr r]; simpl in Hfn; subst fno;
    cbn [fit_go mbind mget mmodify mret mraise mlift feature_names max_depth] in H;
    (destruct (Nat.eqb (length y) 0) eqn:Hy0; [injection H as <- <-; inv_nil |]);
    (destruct (all_same y) eqn:Has;
     [injection H as <- <-; apply Nat.eqb_neq in Hy0; simpl;
      refine (conj eq_refl (conj (conj eq_refl _) (conj _ (conj _ (conj _ (conj _ eq_refl))))));
      [lia | repeat constructor | | lia | lia];
      intros lo hi Hlh; destruct y as [|a y']; [contradiction|];
      inversion Hlh; subst; repeat constructor; simpl; tauto |]);
    (destruct (Z.geb d md) eqn:Hg; [injection H as <- <-; inv_nil |]);
    [discriminate H|].
  apply Nat.eqb_neq in Hy0. assert (Hy : y <> []) by (intro E0; subst y; apply Hy0; reflexivity).
  assert (Hd : (d < md)%Z) by (destruct (Z_lt_le_dec d md) as [L|L];
    [exact L | apply Z.geb_le in L; congruence]).
  set (st := mk_inst d0 md (Some fns) cw cr r) in H.
  destruct (find_best_split E st x y) as [[[oc ocut] cv]|e] eqn:Hb;
    cbn [mbind mlift] in H; [|discriminate H].
  apply find_best_split_shape in Hb.
  destruct oc as [col|], ocut as [cut|]; cbn [mbind mlift mraise] in H; try discriminate H.
  assert (Hcol : (col < ncols x)%nat).
  { destruct Hb as [Hb|(j & c & v & Hb & Hj)]; [discriminate Hb|].
    injection Hb as -> _ _. exact Hj. }
  clear Hb.
  set (lt := map (fun row => Qltb (nth col row 0) cut) (rows x)) in H.
  destruct (bool_index lt y) as [yl0|e] eqn:Hl; cbn [mbind mlift] in H; [|discriminate H].
  destruct (bool_index (map negb lt) y) as [yr0|e] eqn:Hr; cbn [mbind mlift] in H;
    [|discriminate H].
  apply bool_index_ok in Hl as [-> Hlen]. apply bool_index_ok in Hr as [-> _].
  pose proof (sel_length_split lt y Hlen) as Plen.
  pose proof (sel_sum_split lt y Hlen) as Psum.
  pose proof (split_right_step _ _ _ Plen Psum Hy) as Step. cbv zeta in Step.
  destruct (flt_gt (np_mean (sel lt y)) (np_mean (sel (map negb lt) y))) eqn:Hf;
    cbv iota in Step; cbn [mbind mlift] in H;
    (destruct (py_index fns col) as [name|e] eqn:Hn; cbn [mbind mlift] in H; [|discriminate H]);
    (unfold mbind at 1 in H; match type of H with context [fit_go E fuel ?xl ?yl (d + 1) None st] =>
       destruct (fit_go E fuel xl yl (d + 1) None st) as [s1 [rest|e]] eqn:Hrec end;
     cbn [mbind mlift mmodify mret] in H; [|discriminate H]);
    injection H as <- <-;
    (destruct (IH _ _ _ st fns rest s1 eq_refl Hrec) as (I1 & I2 & I3 & I4 & I5 & I6 & I7));
    unfold py_index in Hn; (destruct (nth_error fns col) eqn:Hnth; [|discriminate Hn]);
    injection Hn as ->; simpl in I1, I5, I6;
    (refine (conj (conj Hcol (conj Hnth I1)) (conj (conj eq_refl (conj _ _))
       (conj (Forall_cons _ _ I3) (conj _ (conj _ (conj _ eq_refl))))));
     [lia | | exact Step | | simpl; lia | simpl; rewrite I6; lia]).
  - replace (length y - length (sel lt y))%nat with (length (sel (map negb lt) y)) by lia.
    exact I2.
  - intros lo hi Hlh. constructor.
    + unfold val_within. simpl. rewrite (np_mean_ne y Hy). apply mean_within; assumption.
    + apply I4. apply Forall_sel. exact Hlh.
  - replace (length y - length (sel (map negb lt) y))%nat with (length (sel lt y)) by lia.
    exact I2.
  - intros lo hi Hlh. constructor.
    + unfold val_within. simpl. rewrite (np_mean_ne y Hy). apply mean_within; assumption.
    + apply I4. apply Forall_sel. exact Hlh.
Qed.

Lemma header_depth (x : mat) (fn : option (list string)) (s : inst) :
  depth (header x fn s) = depth s.
Proof. destruct s as [d md [f|] cw cr r], fn; reflexivity. Qed.

(** [fit_go_inv] for a top-level [fit] *)
Lemma fit_inv (E : pyenv) (x : mat) (y : list Q) (d : Z) (fn : option (list string))
      (s : inst) (l : list rule) :
  snd (fit E x y d fn s) = Ok l ->
  exists fns, feature_names (fst (fit E x y d fn s)) = Some fns /\
  rule_shape (ncols x) fns l /\ counts_chain (length y) l /\ Forall right_not_below l /\
  (forall lo hi, Forall (fun a => lo <= a <= hi) y -> Forall (val_within lo hi) l) /\
  (nsplits l <= Z.to_nat (max_depth s - d))%nat /\
  depth (fst (fit E x y d fn s)) = (depth s + Z.of_nat (nsplits l))%Z /\
  rules_ (fst (fit E x y d fn s)) = (if Nat.eqb (nsplits l) 0 then rules_ s else Some l).
Proof.
  unfold fit. rewrite fit_go_header.
  pose proof (fit_go_keeps E (fit_fuel s d) x y d (header x fn s) (header_has_names x fn s))
    as Hk.
  destruct (feature_names (header x fn s)) as [fns|] eqn:Hfn;
    [|exfalso; exact (header_has_names x fn s Hfn)].
  destruct (fit_go E (fit_fuel s d) x y d None (header x fn s)) as [s' r] eqn:H.
  simpl. intros ->. destruct Hk as (_ & _ & _ & Hk). simpl in Hk.
  destruct (fit_go_inv E _ x y d _ fns l s' Hfn H) as (I1 & I2 & I3 & I4 & I5 & I6 & I7).
  rewrite header_max_depth in I5. rewrite header_depth in I6. rewrite header_rules in I7.
  exists fns. rewrite Hk, Hfn. repeat split; assumption.
Qed.

Lemma predict_row_shape (n : nat) (fns : list string) (row : list Q) :
  forall l, rule_shape n fns l -> l <> [] -> (n <= length row)%nat ->
  exists r, In r l /\ predict_row row l = Ok (rule_val r).
Proof.
  induction l as [|a l IH]; intros Hs Hne Hn; [congruence|].
  destruct l as [|b l'].
  - exists a. split; [left; reflexivity | reflexivity].
  - destruct a as [v k|c ic cut v fl vr k kr]; simpl in Hs; [discriminate Hs|].
    destruct Hs as (Hic & _ & Hs).
    change (predict_row row (Split c ic cut v fl vr k kr :: b :: l'))
      with (xv <-? py_index row ic ;; if Qle_bool cut xv then Ok v else predict_row row (b :: l')).
    unfold py_index. destruct (nth_error row ic) as [xv|] eqn:Hx;
      [|apply nth_error_None in Hx; lia].
    simpl. destruct (Qle_bool cut xv).
    + exists (Split c ic cut v fl vr k kr). split; [left; reflexivity | reflexivity].
    + destruct (IH Hs ltac:(discriminate) Hn) as (r & Hr & Hp).
      exists r. split; [right; exact Hr | exact Hp].
Qed.

Lemma map_res_exists {A B} (f : A -> pyres B) (P : B -> Prop) :
  forall l, (forall a, In a l -> exists b, f a = Ok b /\ P b) ->
  exists bs, map_res f l = Ok bs /\ length bs = length l /\ Forall P bs.
Proof.
  induction l as [|a l IH]; intro H.
  - exists []. repeat split. constructor.
  - destruct (H a (or_introl eq_refl)) as (b & Hb & Pb).
    destruct IH as (bs & Hbs & Hlen & Pbs); [intros a' Ha'; apply H; right; exact Ha'|].
    exists (b :: bs). simpl. rewrite Hb, Hbs. simpl.
    repeat split; [simpl; rewrite Hlen; reflexivity | constructor; assumption].
Qed.

(* ---------- criteria ---------- *)

Lemma fold_left_Qplus_shift (f : Q -> Q) :
  forall l s0, fold_left (fun s c => s + f c) l s0 == s0 + fold_left (fun s c => s + f c) l 0.
Proof.
  induction l as [|a l IH]; intro s0; simpl; [ring|].
  rewrite (IH (s0 + f a)), (IH (0 + f a)). ring.
Qed.

Lemma fold_left_Qplus_nonneg (f : Q -> Q) (l : list Q) :
  (forall c, 0 <= f c) -> 0 <= fold_left (fun s c => s + f c) l 0.
Proof.
  intro Hf. induction l as [|a l IH]; simpl; [apply Qle_refl|].
  rewrite fold_left_Qplus_shift. specialize (Hf a). lra.
Qed.

Lemma fold_left_Qplus_zero (f : Q -> Q) (l : list Q) :
  (forall c, f c == 0) -> fold_left (fun s c => s + f c) l 0 == 0.
Proof.
  intro Hf. induction l as [|a l IH]; simpl; [reflexivity|].
  rewrite fold_left_Qplus_shift, IH, Hf. ring.
Qed.

Lemma count_eq_le (c : Q) (y : list Q) : (count_eq c y <= length y)%nat.
Proof. unfold count_eq. apply filter_length_le. Qed.

(** [n_c / n] is in [[0, 1]], also for [n = 0] where Q's division gives 0 *)
Lemma share_bounds (c : Q) (y : list Q) :
  0 <= Qnat (count_eq c y) / Qlen y /\ Qnat (count_eq c y) / Qlen y <= 1.
Proof.
  pose proof (count_eq_le c y) as Hle.
  assert (H0 : 0 <= Qnat (count_eq c y)).
  { unfold Qnat. change 0 with (inject_Z 0). rewrite <- Zle_Qle. lia. }
  destruct y as [|a y'].
  - split; unfold Qle; simpl; lia.
  - pose proof (Qlen_pos (a :: y') ltac:(discriminate)) as P.
    split.
    + apply Qle_shift_div_l; [exact P|]. rewrite Qmult_0_l. exact H0.
    + apply Qle_shift_div_r; [exact P|]. rewrite Qmult_1_l.
      unfold Qnat, Qlen. rewrite <- Zle_Qle. lia.
Qed.

Lemma gini_nonneg_aux (E : pyenv) (y : list Q) : 0 <= gini_criterion E y.
Proof.
  unfold gini_criterion.
  apply (fold_left_Qplus_nonneg
           (fun c => Qnat (count_eq c y) / Qlen y * (1 - Qnat (count_eq c y) / Qlen y))).
  intro c. destruct (share_bounds c y). apply Qmult_le_0_compat; lra.
Qed.

Lemma all_same_spec (y : list Q) : all_same y = true -> forall a, In a y -> a == hd 0 y.
Proof.
  unfold all_same. intros H a Ha. rewrite forallb_forall in H.
  apply Qeq_bool_iff. exact (H a Ha).
Qed.

Lemma filter_all_length {A} (f : A -> bool) (l : list A) :
  (forall a, In a l -> f a = true) -> length (filter f l) = length l.
Proof.
  induction l as [|a l IH]; intro H; simpl; [reflexivity|].
  rewrite (H a (or_introl eq_refl)). simpl. f_equal. apply IH. intros; apply H; right; assumption.
Qed.

Lemma filter_none_length {A} (f : A -> bool) (l : list A) :
  (forall a, In a l -> f a = false) -> length (filter f l) = 0%nat.
Proof.
  induction l as [|a l IH]; intro H; simpl; [reflexivity|].
  rewrite (H a (or_introl eq_refl)). apply IH. intros; apply H; right; assumption.
Qed.

(** On a pure vector a class [c] is either every label or none. *)
Lemma pure_counts (y : list Q) (c : Q) :
  all_same y = true ->
  (count_eq c y = length y /\ count_ne c y = 0%nat) \/ count_eq c y = 0%nat.
Proof.
  intro H. pose proof (all_same_spec y H) as Hs.
  destruct (Qeq_bool (hd 0 y) c) eqn:Hc.
  - left. apply Qeq_bool_iff in Hc. unfold count_eq, count_ne. split.
    + apply filter_all_length. intros a Ha. apply Qeq_bool_iff. rewrite (Hs a Ha). exact Hc.
    + apply filter_none_length. intros a Ha. apply negb_false_iff, Qeq_bool_iff.
      rewrite (Hs a Ha). exact Hc.
  - right. unfold count_eq. apply filter_none_length. intros a Ha.
    apply Qeq_bool_neq in Hc. destruct (Qeq_bool a c) eqn:E; [|reflexivity].
    exfalso. apply Qeq_bool_iff in E. apply Hc. rewrite <- (Hs a Ha). exact E.
Qed.

Lemma gini_pure_aux (E : pyenv) (y : list Q) : all_same y = true -> gini_criterion E y == 0.
Proof.
  intro H. unfold gini_criterion.
  apply (fold_left_Qplus_zero
           (fun c => Qnat (count_eq c y) / Qlen y * (1 - Qnat (count_eq c y) / Qlen y))).
  intro c. destruct (pure_counts y c H) as [[-> _] | ->].
  - destruct y as [|a y']; [reflexivity|].
    pose proof (Qlen_pos (a :: y') ltac:(discriminate)) as P.
    change (Qnat (length (a :: y'))) with (Qlen (a :: y')).
    setoid_replace (Qlen (a :: y') / Qlen (a :: y')) with 1
      by (field; apply Qneq0; exact P).
    ring.
  - unfold Qnat. simpl. unfold Qdiv. ring.
Qed.

Lemma entropy_pure_aux (E : pyenv) (y : list Q) : all_same y = true -> entropy_criterion E y == 0.
Proof.
  intro H. unfold entropy_criterion.
  apply (fold_left_Qplus_zero
           (fun c => Qnat (count_eq c y) / Qlen y *
                     entropy_from_counts E (count_eq c y) (count_ne c y))).
  intro c. destruct (pure_counts y c H) as [[_ ->] | ->].
  - unfold entropy_from_counts. rewrite orb_true_r. ring.
  - unfold entropy_from_counts. simpl. ring.
Qed.

Lemma entropy_from_counts_sym_aux (E : pyenv) (c1 c2 : nat) :
  entropy_from_counts E c1 c2 == entropy_from_counts E c2 c1.
Proof.
  unfold entropy_from_counts. rewrite orb_comm.
  destruct (Nat.eqb c2 0 || Nat.eqb c1 0)%bool; [reflexivity|].
  rewrite (Nat.add_comm c1 c2). ring.
Qed.

Lemma Qsum_ones (y : list Q) : Qsum (map (fun _ => 1) y) == Qlen y.
Proof.
  induction y as [|a y IH]; [reflexivity|].
  rewrite Qlen_cons. unfold Qsum in *. simpl. rewrite IH. ring.
Qed.

Lemma Qsum_nonneg (l : list Q) : Forall (fun a => 0 <= a) l -> 0 <= Qsum l.
Proof.
  induction l as [|a l IH]; intro H; [apply Qle_refl|].
  inversion H; subst. unfold Qsum in *. simpl. specialize (IH H3). lra.
Qed.

Lemma weighted_gini_aux (E : pyenv) (s : inst) (m : list bool) (y : list Q) :
  criterion s = "gini"%string -> class_weight s = None -> length m = length y -> y <> [] ->
  exists q, weighted_criterion E s m y = Ok (Some (Fin q)) /\ 0 <= q /\
  (all_same (sel m y) = true -> all_same (sel (map negb m) y) = true -> q == 0).
Proof.
  intros Hc Hw Hl Hy. unfold weighted_criterion.
  rewrite Hl, Nat.eqb_refl, Hc, Hw. cbn [negb String.eqb sample_weights].
  cbv [Ascii.eqb Bool.eqb]. cbv zeta.
  pose proof (Qlen_pos y Hy) as P.
  assert (HT : Qeq_bool (Qsum (map (fun _ : Q => 1) y)) 0 = false).
  { destruct (Qeq_bool _ 0) eqn:E0; [|reflexivity]. apply Qeq_bool_iff in E0.
    rewrite Qsum_ones in E0. exfalso. exact (Qneq0 _ P E0). }
  unfold np_div. rewrite HT. cbn [flt_mulq flt_add].
  set (ones := map (fun _ : Q => 1) y).
  assert (Hones : Forall (fun a => 0 <= a) ones).
  { unfold ones. apply Forall_forall. intros a Ha. apply in_map_iff in Ha as (_ & <- & _).
    lra. }
  assert (PT : 0 < Qsum ones) by (unfold ones; rewrite Qsum_ones; exact P).
  assert (W : forall mm, 0 <= Qsum (sel mm ones) / Qsum ones).
  { intro mm. apply Qle_shift_div_l; [exact PT|]. rewrite Qmult_0_l.
    apply Qsum_nonneg, Forall_sel, Hones. }
  eexists. split; [reflexivity|]. split.
  - pose proof (W m). pose proof (W (map negb m)).
    pose proof (gini_nonneg_aux E (sel m y)). pose proof (gini_nonneg_aux E (sel (map negb m) y)).
    apply (Qle_trans _ (0 + 0)); [lra|].
    apply Qplus_le_compat; apply Qmult_le_0_compat; assumption.
  - intros H1 H2. rewrite (gini_pure_aux E _ H1), (gini_pure_aux E _ H2). ring.
Qed.

Lemma neg_corr_range_aux (E : pyenv) (m : list bool) (y : list Q) :
  neg_corr_criterion E m y = NaN \/
  exists q, neg_corr_criterion E m y = Fin q /\ -1 <= q /\ q <= 1.
Proof.
  unfold neg_corr_criterion.
  destruct (Nat.ltb (np_unique_size y) 2).
  - right. exists 0. split; [reflexivity | split; lra].
  - cbv zeta. unfold np_corrcoef01. cbv zeta.
    destruct (flt_divq _ _) as [q| | |]; cbn [flt_clip1 flt_mulq]; [| | |left; reflexivity];
      right; [| exists (1 * -1) | exists (-1 * -1)]; [| split; [reflexivity | split; lra] ..].
    destruct (Qle_bool q (-1)) eqn:E1; [exists (-1 * -1); split; [reflexivity | split; lra]|].
    destruct (Qle_bool 1 q) eqn:E2; [exists (1 * -1); split; [reflexivity | split; lra]|].
    exists (q * -1). split; [reflexivity|].
    assert (q1 : -1 < q) by (apply Qnot_le_lt; intro C; apply Qle_bool_iff in C; congruence).
    assert (q2 : q < 1) by (apply Qnot_le_lt; intro C; apply Qle_bool_iff in C; congruence).
    split; lra.
Qed.

Lemma flt_le_trans (a b c : flt) : flt_le a b = true -> flt_le b c = true -> flt_le a c = true.
Proof.
  destruct a, b, c; simpl; try discriminate; try reflexivity.
  rewrite !Qle_bool_iff. apply Qle_trans.
Qed.

Lemma split_on_feature_loop_shape (E : pyenv) (self : inst) (col y : list Q) (S : list Q) :
  forall values acc r, incl values S ->
  (acc = (big, 1 # 2) \/ (In (snd acc) S /\ flt_le (fst acc) big = true)) ->
  split_on_feature_loop E self col y values acc = Ok r ->
  r = (big, 1 # 2) \/ (In (snd r) S /\ flt_le (fst r) big = true).
Proof.
  induction values as [|v vs IH]; intros acc r Hi Hacc H; simpl in H.
  - injection H as <-. exact Hacc.
  - destruct (weighted_criterion E self _ y) as [[cv|]|e]; simpl in H; try discriminate.
    refine (IH _ _ (proj2 (incl_cons_inv Hi)) _ H).
    destruct (flt_le cv (fst acc)) eqn:Hle; [|exact Hacc].
    right. split; [apply Hi; left; reflexivity|]. simpl.
    destruct Hacc as [-> | [_ Hb]]; [exact Hle | exact (flt_le_trans _ _ _ Hle Hb)].
Qed.

Lemma sample_weights_step (c w : Q) :
  forall (y sw : list Q), length sw = length y ->
  length (map (fun '(yi, si) => if Qeq_bool yi c then w else si) (combine y sw)) = length y /\
  forall i, (i < length y)%nat ->
    nth i (map (fun '(yi, si) => if Qeq_bool yi c then w else si) (combine y sw)) 1
    = if Qeq_bool (nth i y 0) c then w else nth i sw 1.
Proof.
  induction y as [|a y IH]; intros sw Hl.
  - split; [reflexivity | intros i Hi; simpl in Hi; lia].
  - destruct sw as [|b sw]; [discriminate|]. injection Hl as Hl.
    destruct (IH sw Hl) as [IH1 IH2]. split; [simpl; rewrite IH1; reflexivity|].
    intros [|i] Hi; [reflexivity|]. simpl in Hi. apply IH2. lia.
Qed.

Lemma nth_ones (y : list Q) : forall i, nth i (map (fun _ : Q => 1) y) 1 = 1.
Proof. induction y as [|a y IH]; intros [|i]; simpl; try reflexivity. apply IH. Qed.

Lemma sample_weights_aux (cw : option (list (Q * Q))) (y : list Q) :
  length (sample_weights cw y) = length y /\
  forall i, (i < length y)%nat ->
    nth i (sample_weights cw y) 1 =
    match cw with
    | None => 1
    | Some kvs =>
        match find (fun kv => Qeq_bool (nth i y 0) (fst kv)) (rev kvs) with
        | Some kv => snd kv
        | None => 1
        end
    end.
Proof.
  destruct cw as [kvs|]; unfold sample_weights.
  - induction kvs as [|[c w] kvs IH] using rev_ind.
    + simpl. split; [apply length_map|]. intros i Hi.
      apply nth_ones.
    + rewrite fold_left_app. simpl fold_left. destruct IH as [IH1 IH2].
      destruct (sample_weights_step c w y _ IH1) as [S1 S2]. split; [exact S1|].
      intros i Hi. rewrite S2 by exact Hi. rewrite rev_app_distr. simpl.
      destruct (Qeq_bool (nth i y 0) c); [reflexivity|]. apply IH2. exact Hi.
  - split; [apply length_map|]. intros i Hi.
    apply nth_ones.
Qed.

Lemma predict_threshold_aux (s : inst) (X : mat) :
  predict s X =
  (proba <-? predict_proba s X ;;
   Ok (map (fun pr => if flt_gt (snd pr) (Fin (1 # 2)) then 1%nat else 0%nat) proba)).
Proof.
  unfold predict, predict_proba.
  destruct (map_res _ (rows X)) as [ps|e]; simpl; [|reflexivity].
  f_equal. rewrite !map_map. apply map_ext. intros [q| | |]; try reflexivity.
  unfold flt_one_minus. cbn [flt_neg flt_add snd].
  destruct (flt_gt (Fin q) (Fin (1 # 2))) eqn:G; [|rewrite andb_false_r; reflexivity].
  apply flt_gt_Fin in G.
  destruct (flt_gt (Fin (1 + - q)) (Fin (1 # 2))) eqn:G2; [|reflexivity].
  apply flt_gt_Fin in G2. exfalso. lra.
Qed.


(** ** Further properties of the code *)

(** X1. A rule list returned by [fit] is a run of split nodes, possibly
    ended by a single leaf. Every split's [index_col] is a column of [x],
    and its [col] is [self.feature_names[index_col]] as the instance holds
    it after the call. *)
Theorem X1_fit_rule_list_shape (E : pyenv) (x : mat) (y : list Q) (d : Z)
        (fn : option (list string)) (s : inst) (l : list rule) :
  snd (fit E x y d fn s) = Ok l ->
  exists fns, feature_names (fst (fit E x y d fn s)) = Some fns /\ rule_shape (ncols x) fns l.
Proof.
  intro H. destruct (fit_inv E x y d fn s l H) as (fns & F & I1 & _).
  exists fns. split; assumption.
Qed.

Lemma X1_witness :
  exists fns, feature_names (fst (fit cpython_env ex_x ex_y 0 None (fresh 5 "gini"))) = Some fns
              /\ rule_shape 1 fns ex_rules.
Proof. refine (X1_fit_rule_list_shape cpython_env ex_x ex_y 0 None _ ex_rules _). vm_compute. reflexivity. Defined.

(** X2. The point counts of a fitted rule list: the first node counts all
    of [y]; each split's [num_pts_right] is at most its [num_pts], and the
    next node counts the points left of the split. A final leaf counts at
    least one point. *)
Theorem X2_fit_point_counts (E : pyenv) (x : mat) (y : list Q) (d : Z)
        (fn : option (list string)) (s : inst) (l : list rule) :
  snd (fit E x y d fn s) = Ok l -> counts_chain (length y) l.
Proof.
  intro H. destruct (fit_inv E x y d fn s l H) as (fns & _ & _ & I2 & _). exact I2.
Qed.

Lemma X2_witness : counts_chain 6 ex_rules.
Proof. refine (X2_fit_point_counts cpython_env ex_x ex_y 0 None (fresh 5 "gini") ex_rules _). vm_compute. reflexivity. Defined.





(** X5. A call [fit(x, y, depth=d)] adds at most [max_depth - d] splits
    (none when [d >= max_depth]). *)
Theorem X5_fit_split_count_bound (E : pyenv) (x : mat) (y : list Q) (d : Z)
        (fn : option (list string)) (s : inst) (l : list rule) :
  snd (fit E x y d fn s) = Ok l -> (nsplits l <= Z.to_nat (max_depth s - d))%nat.
Proof.
  intro H. destruct (fit_inv E x y d fn s l H) as (fns & _ & _ & _ & _ & _ & I5 & _). exact I5.
Qed.

Lemma X5_witness : (nsplits ex_rules <= Z.to_nat (5 - 0))%nat.
Proof. refine (X5_fit_split_count_bound cpython_env ex_x ex_y 0 None (fresh 5 "gini") ex_rules _). vm_compute. reflexivity. Defined.

(** X6. After a successful [fit], [self.depth] has grown by the number of
    splits in the returned list; [self.rules_] is that list when it has a
    split, and is left as it was otherwise. *)
Theorem X6_fit_depth_and_rules (E : pyenv) (x : mat) (y : list Q) (d : Z)
        (fn : option (list string)) (s : inst) (l : list rule) :
  snd (fit E x y d fn s) = Ok l ->
  depth (fst (fit E x y d fn s)) = (depth s + Z.of_nat (nsplits l))%Z /\
  rules_ (fst (fit E x y d fn s)) = (if Nat.eqb (nsplits l) 0 then rules_ s else Some l).
Proof.
  intro H. destruct (fit_inv E x y d fn s l H) as (fns & _ & _ & _ & _ & _ & _ & I6 & I7).
  split; assumption.
Qed.

Lemma X6_witness :
  depth (fst (fit cpython_env ex_x ex_y 0 None (fresh 5 "gini"))) =
    (depth (fresh 5 "gini") + Z.of_nat (nsplits ex_rules))%Z /\
  rules_ (fst (fit cpython_env ex_x ex_y 0 None (fresh 5 "gini"))) =
    (if Nat.eqb (nsplits ex_rules) 0 then rules_ (fresh 5 "gini") else Some ex_rules).
Proof. refine (X6_fit_depth_and_rules cpython_env ex_x ex_y 0 None (fresh 5 "gini") ex_rules _). vm_compute. reflexivity. Defined.

(** X7. After a [fit] that made at least one split, [predict_proba] on rows
    with at least as many entries as the training columns succeeds, gives
    one pair per row, and each pair is [(1 - v, v)] for the [val] of some
    node of the fitted list. *)
Theorem X7_predict_proba_after_fit (E : pyenv) (x : mat) (y : list Q) (d : Z)
        (fn : option (list string)) (s : inst) (l : list rule) (X : mat) :
  snd (fit E x y d fn s) = Ok l -> nsplits l <> 0%nat ->
  Forall (fun row => (ncols x <= length row)%nat) (rows X) ->
  exists ps, predict_proba (fst (fit E x y d fn s)) X = Ok ps /\
    length ps = length (rows X) /\
    Forall (fun pr => exists r, In r l /\ pr = (flt_one_minus (rule_val r), rule_val r)) ps.
Proof.
  intros H Hn HX.
  destruct (fit_inv E x y d fn s l H) as (fns & _ & I1 & _ & _ & _ & _ & _ & I7).
  apply Nat.eqb_neq in Hn. rewrite Hn in I7.
  assert (Hl : l <> []) by (intros ->; discriminate).
  unfold predict_proba. rewrite I7.
  destruct (map_res_exists (fun row => predict_row row l)
              (fun v => exists r, In r l /\ v = rule_val r) (rows X)) as (vs & Hvs & Hlen & Pvs).
  { intros row Hrow. rewrite Forall_forall in HX.
    destruct (predict_row_shape _ fns row l I1 Hl (HX row Hrow)) as (r & Hr & Hp).
    exists (rule_val r). split; [exact Hp | exists r; split; [exact Hr | reflexivity]]. }
  rewrite Hvs. simpl. eexists. split; [reflexivity|].
  rewrite length_map. split; [exact Hlen|].
  apply Forall_map. eapply Forall_impl; [|exact Pvs].
  intros v (r & Hr & ->). exists r. split; [exact Hr | reflexivity].
Qed.

Lemma X7_witness :
  exists ps, predict_proba (fst (fit cpython_env ex_x ex_y 0 None (fresh 5 "gini")))
                           (mk_mat 1 [[5]; [1]]) = Ok ps /\
    length ps = length (rows (mk_mat 1 [[5]; [1]])) /\
    Forall (fun pr => exists r, In r ex_rules /\ pr = (flt_one_minus (rule_val r), rule_val r)) ps.
Proof.
  refine (X7_predict_proba_after_fit cpython_env ex_x ex_y 0 None (fresh 5 "gini") ex_rules
            (mk_mat 1 [[5]; [1]]) _ _ _).
  - vm_compute. reflexivity.
  - vm_compute. discriminate.
  - repeat constructor.
Defined.


(** X9. [predict] labels a row 1 exactly when its [predict_proba]
    probability of class 1 is above 0.5, and 0 otherwise (including a NaN
    probability); it fails exactly when [predict_proba] fails. *)
Theorem X9_predict_is_proba_threshold (s : inst) (X : mat) :
  predict s X =
  (proba <-? predict_proba s X ;;
   Ok (map (fun pr => if flt_gt (snd pr) (Fin (1 # 2)) then 1%nat else 0%nat) proba)).
Proof. exact (predict_threshold_aux s X). Qed.

(** X10. The Gini impurity [gini_criterion] is never negative. *)
Theorem X10_gini_nonneg (E : pyenv) (y : list Q) : 0 <= gini_criterion E y.
Proof. exact (gini_nonneg_aux E y). Qed.

(** X11. The Gini impurity of labels that are all equal is 0. *)
Theorem X11_gini_pure_zero (E : pyenv) (y : list Q) :
  all_same y = true -> gini_criterion E y == 0.
Proof. exact (gini_pure_aux E y). Qed.

Lemma X11_witness : gini_criterion cpython_env [1; 1; 1] == 0.
Proof. refine (X11_gini_pure_zero cpython_env [1; 1; 1] _). vm_compute. reflexivity. Defined.

(** X12. The entropy [entropy_criterion] of labels that are all equal is
    0, whatever [log2] the environment provides. *)
Theorem X12_entropy_pure_zero (E : pyenv) (y : list Q) :
  all_same y = true -> entropy_criterion E y == 0.
Proof. exact (entropy_pure_aux E y). Qed.

Lemma X12_witness : entropy_criterion cpython_env [0; 0] == 0.
Proof. refine (X12_entropy_pure_zero cpython_env [0; 0] _). vm_compute. reflexivity. Defined.

(** X13. [entropy_from_counts] does not depend on the order of its two
    counts. *)
Theorem X13_entropy_from_counts_symmetric (E : pyenv) (c1 c2 : nat) :
  entropy_from_counts E c1 c2 == entropy_from_counts E c2 c1.
Proof. exact (entropy_from_counts_sym_aux E c1 c2). Qed.

(** X14. With the "gini" criterion, no class weights, a split decision as
    long as the non-empty labels, [weighted_criterion] returns a finite
    number that is at least 0, and 0 when each side of the split holds
    only one label value. *)
Theorem X14_weighted_gini_range (E : pyenv) (s : inst) (m : list bool) (y : list Q) :
  criterion s = "gini"%string -> class_weight s = None -> length m = length y -> y <> [] ->
  exists q, weighted_criterion E s m y = Ok (Some (Fin q)) /\ 0 <= q /\
  (all_same (sel m y) = true -> all_same (sel (map negb m) y) = true -> q == 0).
Proof. exact (weighted_gini_aux E s m y). Qed.

Lemma X14_witness :
  exists q, weighted_criterion cpython_env (fresh 5 "gini") [true; false; true] [1; 0; 1]
              = Ok (Some (Fin q)) /\ 0 <= q /\
  (all_same (sel [true; false; true] [1; 0; 1]) = true ->
   all_same (sel (map negb [true; false; true]) [1; 0; 1]) = true -> q == 0).
Proof.
  refine (X14_weighted_gini_range cpython_env (fresh 5 "gini") [true; false; true] [1; 0; 1] _ _ _ _).
  - reflexivity.
  - reflexivity.
  - reflexivity.
  - discriminate.
Defined.

(** X15. [neg_corr_criterion] returns NaN or a finite number in
    [[-1, 1]]. *)
Theorem X15_neg_corr_range (E : pyenv) (m : list bool) (y : list Q) :
  neg_corr_criterion E m y = NaN \/
  exists q, neg_corr_criterion E m y = Fin q /\ -1 <= q /\ q <= 1.
Proof. exact (neg_corr_range_aux E m y). Qed.

(** X16. When [split_on_feature] succeeds, it returns its initial pair
    [(1e10, 0.5)], or a cutoff that is one of the column's values with a
    criterion value at most 1e10. *)
Theorem X16_split_on_feature_result (E : pyenv) (self : inst) (col y : list Q) (v : flt) (c : Q) :
  split_on_feature E self col y = Ok (v, c) ->
  (v = big /\ c = 1 # 2) \/ (In c (py_set E col) /\ flt_le v big = true).
Proof.
  intro H.
  destruct (split_on_feature_loop_shape E self col y (py_set E col) (py_set E col)
              (big, 1 # 2) (v, c) (incl_refl _) (or_introl eq_refl) H) as [Hr | Hr].
  - left. injection Hr as -> ->. split; reflexivity.
  - right. exact Hr.
Qed.

Lemma X16_witness :
  (Fin (48 # 144) = big /\ (2 : Q) = 1 # 2) \/
  (In 2 (py_set cpython_env [0; 1; 2]) /\ flt_le (Fin (48 # 144)) big = true).
Proof.
  refine (X16_split_on_feature_result cpython_env (fresh 5 "gini") [0; 1; 2] [0; 1; 0] _ _ _).
  vm_compute. reflexivity.
Defined.

(** X17. When [find_best_split] succeeds, it returns its initial triple
    [(None, None, 1e10)], or a column index of [x] with a cutoff. *)
Theorem X17_find_best_split_result (E : pyenv) (self : inst) (x : mat) (y : list Q)
        (r : option nat * option Q * flt) :
  find_best_split E self x y = Ok r -> best_split_shape (ncols x) r.
Proof. exact (find_best_split_shape E self x y r). Qed.

Lemma X17_witness : best_split_shape 2 (Some 1%nat, Some 2, Fin (0 # 36)).
Proof.
  refine (X17_find_best_split_result cpython_env (fresh 5 "gini")
            (mk_mat 2 [[0; 3]; [1; 1]; [2; 2]]) [0; 1; 0] _ _).
  vm_compute. reflexivity.
Defined.

(** X18. The sample weights of [weighted_criterion] have one entry per
    label. Without class weights every entry is 1; with class weights a
    label gets the weight of the class key equal to it (the last one if
    several compare equal), and 1 when no key equals it. *)
Theorem X18_sample_weights_lookup (cw : option (list (Q * Q))) (y : list Q) :
  length (sample_weights cw y) = length y /\
  forall i, (i < length y)%nat ->
    nth i (sample_weights cw y) 1 =
    match cw with
    | None => 1
    | Some kvs =>
        match find (fun kv => Qeq_bool (nth i y 0) (fst kv)) (rev kvs) with
        | Some kv => snd kv
        | None => 1
        end
    end.
Proof. exact (sample_weights_aux cw y). Qed.

Lemma X18_witness :
  nth 0 (sample_weights (Some [(1, 3 # 2); (0, 1 # 2)]) [0; 1; 1]) 1 = 1 # 2.
Proof.
  refine (eq_trans (proj2 (X18_sample_weights_lookup (Some [(1, 3 # 2); (0, 1 # 2)])
                             [0; 1; 1]) 0%nat _) _).
  - simpl. lia.
  - vm_compute. reflexivity.
Defined.
